(** * Verification of [common/src/docker.ts]

    A shallow embedding of the mount-string parser [parseMount] and of the
    orchestration functions [isDockerBuildXInstalled], [buildImage],
    [runContainer] and [pushImage], followed by the properties the
    specification states about them.

    Conventions.
    - A JavaScript string is a [string]; the only characters the code inspects
      ([","] and ["="]) are ASCII, so splitting by byte and splitting by
      UTF-16 code unit agree.
    - A JavaScript value that is either a string or [undefined] (an array
      element read past the end, a record field assigned from one) is a
      [JsValue].
    - An exception is the [Thrown] outcome; [async] functions are sequential
      here, a rejected promise being a [Thrown] outcome too.
    - The collaborators imported from other modules ([path.join],
      [fs.existsSync], [config.*], [getAbsolutePath], [substituteValues],
      [process.cwd]) are parameters of the embedding. *)

From Stdlib Require Import String Ascii List ZArith Bool Lia Permutation.
From Stdlib Require Import DecimalString.
Import ListNotations.

Local Open Scope list_scope.
Local Open Scope string_scope.

(* ================================================================== *)
(** ** JavaScript values and string primitives *)

Module Js.

(** [string | undefined]. *)
Inductive JsValue : Type :=
| JsUndefined
| JsString (s : string).

(** [v === s] for a string literal [s]. *)
Definition strict_eq (v : JsValue) (s : string) : bool :=
  match v with
  | JsUndefined => false
  | JsString t => String.eqb t s
  end.

(** [`${v}`]: how a template literal renders a value. *)
Definition template (v : JsValue) : string :=
  match v with
  | JsUndefined => "undefined"
  | JsString s => s
  end.

(** [arr[i]]: reading past the end yields [undefined]. *)
Definition index (arr : list string) (i : nat) : JsValue :=
  match nth_error arr i with
  | Some s => JsString s
  | None => JsUndefined
  end.

(** [s.split(sep)] for a one-character separator: the pieces between the
    occurrences of [sep], always at least one piece. *)
Fixpoint split (sep : ascii) (s : string) : list string :=
  match s with
  | EmptyString => [EmptyString]
  | String c rest =>
      if Ascii.eqb c sep then EmptyString :: split sep rest
      else match split sep rest with
           | [] => [String c EmptyString]
           | piece :: pieces => String c piece :: pieces
           end
  end.

(** [arr.join(sep)]. *)
Definition join (sep : string) (arr : list string) : string :=
  String.concat sep arr.

(** [s.includes(sub)]. *)
Fixpoint includes (s sub : string) : bool :=
  String.prefix sub s
  || match s with
     | EmptyString => false
     | String _ rest => includes rest sub
     end.

(** [`${n}`] for an integer number: its decimal notation. *)
Definition number_to_string (n : Z) : string :=
  NilZero.string_of_int (Z.to_int n).

(** Truthiness of a [string | undefined] value: [undefined] and the empty
    string are falsy. *)
Definition truthy (v : option string) : bool :=
  match v with
  | None => false
  | Some s => negb (String.eqb s "")
  end.

(** Does the character occur in the string? *)
Fixpoint has_char (c : ascii) (s : string) : bool :=
  match s with
  | EmptyString => false
  | String d rest => Ascii.eqb d c || has_char c rest
  end.

End Js.
Import Js.

(* ================================================================== *)
(** ** Outcomes: a value returned or an [Error] thrown *)

Inductive Outcome (A : Type) : Type :=
| Returned (a : A)
| Thrown (message : string).

Arguments Returned {A} a.
Arguments Thrown {A} message.

(* ================================================================== *)
(** ** The mount parser *)

(** [interface DockerMount]. The fields are declared [string], but
    [parseMount] stores [parts[1]] in them, which is [undefined] for a
    segment without ["="]. *)
Record DockerMount : Type := mkDockerMount {
  type : JsValue;
  source : JsValue;
  target : JsValue
}.

(** One turn of the [for (const option of options)] loop of [parseMount]:
    the [switch] on [parts[0]], acting on the three local variables. *)
Definition parseMount_option (option : string) (m : DockerMount)
  : Outcome DockerMount :=
  let parts := split "=" option in
  let key := index parts 0 in
  if strict_eq key "type" then
    Returned (mkDockerMount (index parts 1) (source m) (target m))
  else if strict_eq key "src" || strict_eq key "source" then
    Returned (mkDockerMount (type m) (index parts 1) (target m))
  else if strict_eq key "dst" || strict_eq key "destination"
          || strict_eq key "target" then
    Returned (mkDockerMount (type m) (source m) (index parts 1))
  else if strict_eq key "readonly" || strict_eq key "ro" then
    Returned m
  else
    Thrown ("Unhandled mount option '" ++ template key ++ "'").

(** The loop itself: the first [throw] leaves it. *)
Fixpoint parseMount_loop (options : list string) (m : DockerMount)
  : Outcome DockerMount :=
  match options with
  | [] => Returned m
  | option :: rest =>
      match parseMount_option option m with
      | Returned m' => parseMount_loop rest m'
      | Thrown e => Thrown e
      end
  end.

Definition parseMount (mountString : string) : Outcome DockerMount :=
  let options := split "," mountString in
  parseMount_loop options
    (mkDockerMount (JsString "") (JsString "") (JsString "")).

(* ================================================================== *)
(** ** Effects: process invocations and console output *)

(** One call of the process runner: the command name and its argument
    vector. *)
Record Invocation : Type := mkInvocation {
  inv_command : string;
  inv_args : list string
}.

(** What the functions of this module can change outside themselves: the
    processes they started and the lines they printed, oldest first. *)
Record World : Type := mkWorld {
  invocations : list Invocation;
  console : list string
}.

(** Computations that read and extend the world and may throw. *)
Definition M (A : Type) : Type := World -> Outcome A * World.

Definition ret {A : Type} (a : A) : M A := fun w => (Returned a, w).

Definition throw {A : Type} (message : string) : M A :=
  fun w => (Thrown message, w).

Definition bind {A B : Type} (c : M A) (k : A -> M B) : M B :=
  fun w =>
    match c w with
    | (Returned a, w') => k a w'
    | (Thrown e, w') => (Thrown e, w')
    end.

Notation "x <- c ;; k" := (bind c (fun x => k))
  (at level 61, c at next level, right associativity).
Notation "c ;;; k" := (bind c (fun _ => k))
  (at level 61, right associativity).

(** A pure computation that may throw, run inside [M]. *)
Definition lift {A : Type} (o : Outcome A) : M A := fun w => (o, w).

(** [console.log(line)]. *)
Definition console_log (line : string) : M unit :=
  fun w => (Returned tt, mkWorld (invocations w) (console w ++ [line])%list).

(** [type ExecFunction = (command, args) => Promise<number>]. *)
Definition ExecFunction : Type := string -> list string -> M Z.

(** The process runner as the specification describes it: it starts the
    process, which is recorded, and yields the exit code the engine
    answers with. *)
Definition runner (engine : string -> list string -> Z) : ExecFunction :=
  fun cmd args w =>
    (Returned (engine cmd args),
     mkWorld (invocations w ++ [mkInvocation cmd args])%list (console w)).

(** [args.push(x, ...)]. *)
Definition push (args : list string) (items : list string) : list string :=
  (args ++ items)%list.

(* ================================================================== *)
(** ** The devcontainer configuration *)

(** Modelled from the spec: the type [DevContainerConfig] is declared in
    [config.ts], which is not part of the sources at hand. The specification
    lists its fields: [build.dockerfile], [build.context], [build.args],
    [mounts], [runArgs], [workspaceFolder], [remoteUser]; all are optional.
    [build.args] is an object used as a map; it is kept as the list of its
    entries in the order [for ... in] enumerates them. *)
Record BuildConfig : Type := mkBuildConfig {
  dockerfile : option string;
  context : option string;
  args : option (list (string * string))
}.

Record DevContainerConfig : Type := mkDevContainerConfig {
  build : option BuildConfig;
  mounts : option (list string);
  runArgs : option (list string);
  workspaceFolder : option string;
  remoteUser : option string
}.

(** [devcontainerConfig.build?.args] *)
Definition build_args (c : DevContainerConfig) : option (list (string * string)) :=
  match build c with
  | Some b => args b
  | None => None
  end.

(* ================================================================== *)
(** ** The orchestration functions *)

Section Docker.

(** [path.join(...segments)] *)
Variable path_join : list string -> string.
(** [getAbsolutePath(path, base)] from [./file] *)
Variable getAbsolutePath : string -> string -> string.
(** [process.cwd()] *)
Variable cwd : string.
(** [substituteValues(raw)] from [./envvars] *)
Variable substituteValues : string -> string.
(** [fs.existsSync(path)] *)
Variable existsSync : JsValue -> bool.
(** [config.loadFromFile(path)] *)
Variable loadFromFile : string -> Outcome DevContainerConfig.
(** [config.getDockerfile(cfg)], [config.getContext(cfg)] *)
Variable getDockerfile : DevContainerConfig -> option string.
Variable getContext : DevContainerConfig -> option string.
(** [config.getWorkspaceFolder(cfg, folder)], [config.getRemoteUser(cfg)] *)
Variable getWorkspaceFolder : DevContainerConfig -> string -> string.
Variable getRemoteUser : DevContainerConfig -> string.

Definition isDockerBuildXInstalled (exec : ExecFunction) : M bool :=
  exitCode <- exec "docker" ["buildx"; "--help"] ;;
  ret (Z.eqb exitCode 0).

Definition dockerfile_not_set : string :=
  "dockerfile not set in devcontainer.json - devcontainer-build-run currently only supports Dockerfile-based dev containers".

(** The body of [for (const argName in buildArgs)]. *)
Definition buildImage_arg (args : list string) (entry : string * string)
  : list string :=
  let argName := fst entry in
  let argValue := substituteValues (snd entry) in
  push args ["--build-arg"; argName ++ "=" ++ argValue].

Definition buildImage (exec : ExecFunction)
           (imageName checkoutPath subFolder : string) : M unit :=
  let folder := path_join [checkoutPath; subFolder] in
  let devcontainerJsonPath :=
    path_join [folder; ".devcontainer/devcontainer.json"] in
  devcontainerConfig <- lift (loadFromFile devcontainerJsonPath) ;;
  match getDockerfile devcontainerConfig with
  | None => throw dockerfile_not_set
  | Some configDockerfile =>
      if String.eqb configDockerfile "" then throw dockerfile_not_set
      else
        let dockerfilePath :=
          path_join [folder; ".devcontainer"; configDockerfile] in
        let configContext :=
          match getContext devcontainerConfig with
          | Some c => c
          | None => ""
          end in
        let contextPath :=
          path_join [folder; ".devcontainer"; configContext] in
        let args := ["buildx"; "build"] in
        let args := push args ["--tag"] in
        let args := push args [imageName ++ ":latest"] in
        let args := push args ["--cache-from"] in
        let args := push args ["type=registry,ref=" ++ imageName ++ ":latest"] in
        let args := push args ["--cache-to"] in
        let args := push args ["type=inline"] in
        let args := push args ["--output=type=docker"] in
        let buildArgs := build_args devcontainerConfig in
        let args :=
          match buildArgs with
          | Some entries => fold_left buildImage_arg entries args
          | None => args
          end in
        let args := push args ["-f"; dockerfilePath] in
        let args := push args [contextPath] in
        exitCode <- exec "docker" args ;;
        if negb (Z.eqb exitCode 0) then
          throw ("build failed with " ++ number_to_string exitCode)
        else ret tt
  end.

(** The callback of [forEach] over the substituted mount strings; [args]
    is the array it pushes to. *)
Definition runContainer_mount (m : string) (args : list string)
  : M (list string) :=
  mount <- lift (parseMount m) ;;
  if strict_eq (type mount) "bind" then
    if negb (existsSync (source mount)) then
      console_log ("Skipping mount as source does not exist: '" ++ m ++ "'") ;;;
      ret args
    else ret (push args ["--mount"; m])
  else ret (push args ["--mount"; m]).

Fixpoint runContainer_mounts (ms : list string) (args : list string)
  : M (list string) :=
  match ms with
  | [] => ret args
  | m :: rest =>
      args' <- runContainer_mount m args ;;
      runContainer_mounts rest args'
  end.

(** The body of [for (const env of envs)]. *)
Definition runContainer_env (args : list string) (env : string)
  : list string :=
  push args ["--env"; env].

Definition runContainer (exec : ExecFunction)
           (imageName checkoutPath subFolder command : string)
           (envs : option (list string)) (mounts' : option (list string))
  : M unit :=
  let checkoutPathAbsolute := getAbsolutePath checkoutPath cwd in
  let folder := path_join [checkoutPathAbsolute; subFolder] in
  let devcontainerJsonPath :=
    path_join [folder; ".devcontainer/devcontainer.json"] in
  devcontainerConfig <- lift (loadFromFile devcontainerJsonPath) ;;
  let workspaceFolder := getWorkspaceFolder devcontainerConfig folder in
  let remoteUser := getRemoteUser devcontainerConfig in
  let args := ["run"] in
  let args :=
    push args ["--mount";
               "type=bind,src=" ++ checkoutPathAbsolute
               ++ ",dst=" ++ workspaceFolder] in
  args <- match mounts devcontainerConfig with
          | Some ms => runContainer_mounts (map substituteValues ms) args
          | None => ret args
          end ;;
  let args := push args ["--workdir"; workspaceFolder] in
  let args := push args ["--user"; remoteUser] in
  let args :=
    match runArgs devcontainerConfig with
    | Some ras =>
        let substitutedRunArgs := map substituteValues ras in
        push args substitutedRunArgs
    | None => args
    end in
  let args :=
    match envs with
    | Some es => fold_left runContainer_env es args
    | None => args
    end in
  let args := push args [imageName ++ ":latest"] in
  let args :=
    push args ["bash"; "-c"; "sudo chown -R $(whoami) . && " ++ command] in
  exitCode <- exec "docker" args ;;
  if negb (Z.eqb exitCode 0) then
    throw ("run failed with " ++ number_to_string exitCode)
  else ret tt.

Definition pushImage (exec : ExecFunction) (imageName : string) : M unit :=
  let args := ["push"] in
  let args := push args [imageName ++ ":latest"] in
  exitCode <- exec "docker" args ;;
  if negb (Z.eqb exitCode 0) then
    throw ("push failed with " ++ number_to_string exitCode)
  else ret tt.

End Docker.

(* ================================================================== *)
(** ** Vocabulary of the mount-string format

    The words the properties below are stated in: the key of a segment, the
    field a key stands for, the keys the parser accepts. They follow the
    [case] labels of the [switch] in [parseMount]. *)

(** The text of a string before the first occurrence of a character (the
    whole string when it does not occur). *)
Fixpoint before (c : ascii) (s : string) : string :=
  match s with
  | EmptyString => EmptyString
  | String d rest =>
      if Ascii.eqb d c then EmptyString else String d (before c rest)
  end.

(** The key of a segment: the text before the first ["="]. *)
Definition key_of (segment : string) : string := before "=" segment.

(** The second token of a segment, as the parser reads it: the text between
    the first and the second ["="], [undefined] without any ["="]. *)
Definition value_of (segment : string) : JsValue :=
  index (split "=" segment) 1.

Inductive MountField : Type := FType | FSource | FTarget.

Definition MountField_eqb (f g : MountField) : bool :=
  match f, g with
  | FType, FType | FSource, FSource | FTarget, FTarget => true
  | _, _ => false
  end.

(** The field a value-bearing key assigns, aliases included. *)
Definition field_of_key (k : string) : option MountField :=
  if String.eqb k "type" then Some FType
  else if String.eqb k "src" || String.eqb k "source" then Some FSource
  else if String.eqb k "dst" || String.eqb k "destination"
          || String.eqb k "target" then Some FTarget
  else None.

(** The keys that are accepted and dropped. *)
Definition readonly_key (k : string) : bool :=
  String.eqb k "readonly" || String.eqb k "ro".

(** The eight keys the parser accepts. *)
Definition recognized_key (k : string) : bool :=
  existsb (String.eqb k)
    ["type"; "src"; "source"; "dst"; "destination"; "target";
     "readonly"; "ro"].

(** A segment the parser accepts. *)
Definition recognized (o : string) : bool := recognized_key (key_of o).

Definition get_field (f : MountField) (m : DockerMount) : JsValue :=
  match f with
  | FType => type m
  | FSource => source m
  | FTarget => target m
  end.

Definition set_field (f : MountField) (v : JsValue) (m : DockerMount)
  : DockerMount :=
  match f with
  | FType => mkDockerMount v (source m) (target m)
  | FSource => mkDockerMount (type m) v (target m)
  | FTarget => mkDockerMount (type m) (source m) v
  end.

(** The record [parseMount] starts from. *)
Definition empty_mount : DockerMount :=
  mkDockerMount (JsString "") (JsString "") (JsString "").

(** A [key=value] segment and a mount string made of such segments. *)
Definition segment (kv : string * string) : string :=
  fst kv ++ "=" ++ snd kv.

Definition mount_string (kvs : list (string * string)) : string :=
  join "," (map segment kvs).

(** The value of the last segment whose key stands for field [f], the empty
    string when there is none. *)
Definition last_value_step (f : MountField) (acc : string)
           (kv : string * string) : string :=
  match field_of_key (fst kv) with
  | Some g => if MountField_eqb f g then snd kv else acc
  | None => acc
  end.

Definition last_value (f : MountField) (kvs : list (string * string))
  : string :=
  fold_left (last_value_step f) kvs "".

(** The fields the segments of a mount string assign, in order. *)
Definition assigned_fields (options : list string) : list MountField :=
  flat_map
    (fun o => match field_of_key (key_of o) with
              | Some f => [f]
              | None => []
              end)
    options.

(** The record a parse yields, if it yields one. *)
Definition mount_of (o : Outcome DockerMount) : option DockerMount :=
  match o with
  | Returned m => Some m
  | Thrown _ => None
  end.

Definition unhandled (k : string) : string :=
  "Unhandled mount option '" ++ k ++ "'".

(** What one recognized segment does to the record. *)
Definition assign (m : DockerMount) (o : string) : DockerMount :=
  match field_of_key (key_of o) with
  | Some f => set_field f (value_of o) m
  | None => m
  end.

(** A segment cut after its second token: of [key=value=more] it keeps
    [key=value]; a segment with at most one ["="] is kept as it is. *)
Definition truncate_segment (o : string) : string :=
  join "=" (firstn 2 (split "=" o)).

(** A mount string with every segment cut after its second token. *)
Definition truncate_mount_string (s : string) : string :=
  join "," (map truncate_segment (split "," s)).

(** A value that is a string, not [undefined]. *)
Definition is_string (v : JsValue) : bool :=
  match v with
  | JsString _ => true
  | JsUndefined => false
  end.

(* ================================================================== *)
(** ** Vocabulary of the orchestration functions *)

(** The process invocations made between two states of the world. *)
Definition new_invocations (w w' : World) : list Invocation :=
  skipn (length (invocations w)) (invocations w').

(** An outcome that is an error whose message is [<what> failed with
    <code>], which includes the decimal notation of the code. *)
Definition failed_with (what : string) (code : Z) (r : Outcome unit) : Prop :=
  exists message,
    r = Thrown message
    /\ message = what ++ " failed with " ++ number_to_string code
    /\ includes message (number_to_string code) = true.

(** The translation of an exit code into an outcome. *)
Definition exit_code_checked (what : string) (code : Z) (r : Outcome unit)
  : Prop :=
  (code = 0%Z -> r = Returned tt)
  /\ (code <> 0%Z -> failed_with what code r).

(** The end of each orchestration function, with the recording runner: run
    [docker] with the arguments, throw on a non-zero exit code. *)
Definition checked_exec (engine : string -> list string -> Z)
           (failure : string) (args : list string) : M unit :=
  exitCode <- runner engine "docker" args ;;
  if negb (Z.eqb exitCode 0) then
    throw (failure ++ number_to_string exitCode)
  else ret tt.

(** Every invocation made between [w] and the end of a computation had its
    exit code translated into the outcome. *)
Definition translates (engine : string -> list string -> Z)
           (what : string) (w : World) (rw : Outcome unit * World) : Prop :=
  forall i, In i (new_invocations w (snd rw)) ->
            exit_code_checked what (engine (inv_command i) (inv_args i))
                              (fst rw).

(** The flags one [build.args] entry, one environment entry contributes. *)
Definition build_arg_flags (substituteValues : string -> string)
           (entry : string * string) : list string :=
  ["--build-arg"; fst entry ++ "=" ++ substituteValues (snd entry)].

Definition env_flags (env : string) : list string := ["--env"; env].

(** Between two states of the world no process was started, or one, and
    then it was [docker]. *)
Definition at_most_one_docker (w w' : World) : Prop :=
  new_invocations w w' = []
  \/ exists args, new_invocations w w' = [mkInvocation "docker" args].

(** A mount string that does not parse to a [bind] mount. *)
Definition not_bind (m : string) : Prop :=
  forall mount, parseMount m = Returned mount ->
                strict_eq (type mount) "bind" = false.

(** The entries of [build.args], none when the field is absent. *)
Definition build_arg_entries (c : DevContainerConfig)
  : list (string * string) :=
  match build_args c with
  | Some entries => entries
  | None => []
  end.

(** The mount strings the configuration declares, none when the field is
    absent. *)
Definition config_mounts (c : DevContainerConfig) : list string :=
  match mounts c with
  | Some ms => ms
  | None => []
  end.

Definition config_runArgs (c : DevContainerConfig) : list string :=
  match runArgs c with
  | Some ras => ras
  | None => []
  end.

(** A mount string that parses to a [bind] mount whose source does not
    exist. *)
Definition missing_bind_source (existsSync : JsValue -> bool) (m : string)
  : bool :=
  match parseMount m with
  | Returned mount =>
      strict_eq (type mount) "bind" && negb (existsSync (source mount))
  | Thrown _ => false
  end.

(** The flags one configured mount contributes: none when it is a [bind]
    mount whose source is missing. *)
Definition mount_flags (existsSync : JsValue -> bool) (m : string)
  : list string :=
  if missing_bind_source existsSync m then [] else ["--mount"; m].

Definition parses (m : string) : Prop :=
  exists mount, parseMount m = Returned mount.

Definition skipping_message (m : string) : string :=
  "Skipping mount as source does not exist: '" ++ m ++ "'".

(* ================================================================== *)
(** ** A concrete setting

    Collaborators and a configuration to run the functions on: paths are
    joined with ["/"], nothing is substituted, only the Docker socket exists,
    and the engine answers [0] to [push] and [3] to everything else. *)

Module Fixture.

Definition path_join (segments : list string) : string :=
  String.concat "/" segments.

Definition getAbsolutePath (p base : string) : string :=
  base ++ "/" ++ p.

Definition cwd : string := "/work".

Definition substituteValues (raw : string) : string := raw.

Definition existsSync (p : JsValue) : bool :=
  strict_eq p "/var/run/docker.sock".

Definition devcontainer : DevContainerConfig :=
  mkDevContainerConfig
    (Some (mkBuildConfig (Some "Dockerfile") None
             (Some [("VARIANT", "18"); ("USER", "vscode")])))
    (Some ["type=bind,source=/var/run/docker.sock,target=/var/run/docker.sock";
           "type=bind,source=/missing,target=/mnt";
           "src=home-cache,target=/home/vscode/.cache"])
    (Some ["--cap-add=SYS_PTRACE"])
    (Some "/workspace")
    None.

(** A configuration that names an image instead of a Dockerfile. *)
Definition image_only : DevContainerConfig :=
  mkDevContainerConfig None None None None None.

Definition loadFromFile (p : string) : Outcome DevContainerConfig :=
  if String.eqb p "repo/app/.devcontainer/devcontainer.json"
     || String.eqb p "/work/repo/app/.devcontainer/devcontainer.json"
  then Returned devcontainer
  else Returned image_only.

Definition getDockerfile (c : DevContainerConfig) : option string :=
  match build c with
  | Some b => dockerfile b
  | None => None
  end.

Definition getContext (c : DevContainerConfig) : option string :=
  match build c with
  | Some b => context b
  | None => None
  end.

Definition getWorkspaceFolder (c : DevContainerConfig) (folder : string)
  : string :=
  match workspaceFolder c with
  | Some f => f
  | None => folder
  end.

Definition getRemoteUser (c : DevContainerConfig) : string :=
  match remoteUser c with
  | Some u => u
  | None => "root"
  end.

Definition engine (cmd : string) (args : list string) : Z :=
  match args with
  | "push" :: _ => 0%Z
  | _ => 3%Z
  end.

Definition world : World := mkWorld [] [].

Definition build_image :=
  buildImage path_join substituteValues loadFromFile getDockerfile
    getContext.

Definition run_container :=
  runContainer path_join getAbsolutePath cwd substituteValues existsSync
    loadFromFile getWorkspaceFolder getRemoteUser.

End Fixture.

(** Further settings: a configuration file that cannot be read, a
    configuration with a mount option the parser does not know, and one
    whose mounts are all volumes. *)

Module Faulty.

Definition unreadable (p : string) : Outcome DevContainerConfig :=
  Thrown "ENOENT: no such file or directory".

Definition unknown_option : DevContainerConfig :=
  mkDevContainerConfig None
    (Some ["type=bind,source=/missing,target=/mnt";
           "type=bind,source=/src,target=/dst,consistency=cached";
           "src=home-cache,target=/home/vscode/.cache"])
    None (Some "/workspace") None.

Definition load_unknown_option (p : string) : Outcome DevContainerConfig :=
  Returned unknown_option.

Definition volumes : DevContainerConfig :=
  mkDevContainerConfig None
    (Some ["type=volume,src=cache,dst=/c";
           "src=home-cache,target=/home/vscode/.cache"])
    None (Some "/workspace") None.

Definition load_volumes (p : string) : Outcome DevContainerConfig :=
  Returned volumes.

Definition everything_exists (p : JsValue) : bool := true.

Definition nothing_exists (p : JsValue) : bool := false.

(** A process runner that cannot start the engine. *)
Definition docker_missing : ExecFunction :=
  fun cmd args w => (Thrown "spawn docker ENOENT", w).

End Faulty.

(* ================================================================== *)
(** ** Lemmas on strings *)

Section StringLemmas.

Variable c : ascii.

Lemma split_nonempty (s : string) : split c s <> [].
Proof.
  induction s as [|d s IH]; simpl.
  - discriminate.
  - destruct (Ascii.eqb d c); [discriminate|].
    destruct (split c s); [contradiction | discriminate].
Qed.

Lemma split_no_sep (s : string) :
  has_char c s = false -> split c s = [s].
Proof.
  induction s as [|d s IH]; simpl; [reflexivity|].
  intros H. apply orb_false_iff in H as [Hd Hs].
  rewrite Hd, (IH Hs). reflexivity.
Qed.

Lemma split_app_sep (a b : string) :
  has_char c a = false ->
  split c (a ++ String c b) = a :: split c b.
Proof.
  induction a as [|d a IH]; simpl.
  - intros _. rewrite Ascii.eqb_refl. reflexivity.
  - intros H. apply orb_false_iff in H as [Hd Ha].
    rewrite Hd, (IH Ha). reflexivity.
Qed.

Lemma split_pieces_no_sep (s p : string) :
  In p (split c s) -> has_char c p = false.
Proof.
  revert p. induction s as [|d s IH]; simpl; intros p Hin.
  - destruct Hin as [<-|[]]. reflexivity.
  - destruct (Ascii.eqb d c) eqn:Hd.
    + destruct Hin as [<-|Hin]; [reflexivity | auto].
    + destruct (split c s) as [|q qs] eqn:Hq.
      * destruct (split_nonempty _ Hq).
      * destruct Hin as [<-|Hin].
        -- simpl. rewrite Hd. apply IH. left; reflexivity.
        -- apply IH. right; exact Hin.
Qed.

Lemma split_join (segs : list string) :
  segs <> [] ->
  Forall (fun p => has_char c p = false) segs ->
  split c (join (String c "") segs) = segs.
Proof.
  unfold join. induction segs as [|p ps IH]; [congruence|].
  intros _ Hall. inversion Hall as [|? ? Hp Hps]; subst.
  destruct ps as [|q qs].
  - simpl. apply split_no_sep; exact Hp.
  - change (String.concat (String c "") (p :: q :: qs))
      with (p ++ String c (String.concat (String c "") (q :: qs))).
    rewrite split_app_sep by exact Hp.
    rewrite IH; [reflexivity | discriminate | exact Hps].
Qed.

Lemma index_split_0 (s : string) :
  index (split c s) 0 = JsString (before c s).
Proof.
  unfold index. induction s as [|d s IH]; simpl; [reflexivity|].
  destruct (Ascii.eqb d c); [reflexivity|].
  destruct (split c s) as [|q qs] eqn:Hq.
  - destruct (split_nonempty _ Hq).
  - simpl in *. congruence.
Qed.

End StringLemmas.

Lemma prefix_refl (s : string) : String.prefix s s = true.
Proof.
  induction s as [|d s IH]; simpl; [reflexivity|].
  destruct (ascii_dec d d); [exact IH | congruence].
Qed.

Lemma includes_suffix (p s : string) : includes (p ++ s) s = true.
Proof.
  induction p as [|d p IH].
  - destruct s as [|a s]; [reflexivity|].
    cbn [append includes]. rewrite prefix_refl. reflexivity.
  - cbn [append]. cbn [includes]. rewrite IH. apply orb_true_r.
Qed.

(* ================================================================== *)
(** ** Lemmas on the mount parser *)

(** The first example in the comments of [parseMount]. *)
Example parseMount_docker_sock :
  parseMount "type=bind,source=/var/run/docker.sock,target=/var/run/docker.sock"
  = Returned (mkDockerMount (JsString "bind")
                (JsString "/var/run/docker.sock")
                (JsString "/var/run/docker.sock")).
Proof. reflexivity. Qed.

Lemma recognized_key_cases (k : string) :
  recognized_key k
  = match field_of_key k with
    | Some _ => true
    | None => readonly_key k
    end.
Proof.
  unfold recognized_key, field_of_key, readonly_key. simpl.
  destruct (String.eqb k "type"), (String.eqb k "src"),
    (String.eqb k "source"), (String.eqb k "dst"),
    (String.eqb k "destination"), (String.eqb k "target"),
    (String.eqb k "readonly"), (String.eqb k "ro"); reflexivity.
Qed.

(** The [switch], read off by the class of the segment's key. *)
Lemma parseMount_option_cases (o : string) (m : DockerMount) :
  parseMount_option o m
  = match field_of_key (key_of o) with
    | Some f => Returned (set_field f (value_of o) m)
    | None =>
        if readonly_key (key_of o) then Returned m
        else Thrown (unhandled (key_of o))
    end.
Proof.
  unfold parseMount_option, value_of, key_of, field_of_key, readonly_key,
    unhandled.
  rewrite index_split_0. cbn [strict_eq template].
  destruct (String.eqb (before "=" o) "type"); [reflexivity|].
  destruct (String.eqb (before "=" o) "src" || String.eqb (before "=" o) "source");
    [reflexivity|].
  destruct (String.eqb (before "=" o) "dst"
            || String.eqb (before "=" o) "destination"
            || String.eqb (before "=" o) "target"); reflexivity.
Qed.

Lemma parseMount_option_recognized (o : string) (m : DockerMount) :
  recognized o = true -> parseMount_option o m = Returned (assign m o).
Proof.
  unfold recognized, assign. rewrite recognized_key_cases, parseMount_option_cases.
  destruct (field_of_key (key_of o)); [reflexivity|].
  intros ->. reflexivity.
Qed.

Lemma parseMount_option_unrecognized (o : string) (m : DockerMount) :
  recognized o = false ->
  parseMount_option o m = Thrown (unhandled (key_of o)).
Proof.
  unfold recognized. rewrite recognized_key_cases, parseMount_option_cases.
  destruct (field_of_key (key_of o)); [discriminate|].
  intros ->. reflexivity.
Qed.

Lemma parseMount_loop_recognized (os : list string) (m : DockerMount) :
  forallb recognized os = true ->
  parseMount_loop os m = Returned (fold_left assign os m).
Proof.
  revert m. induction os as [|o os IH]; intros m H; simpl in *.
  - reflexivity.
  - apply andb_true_iff in H as [Ho Hos].
    rewrite (parseMount_option_recognized _ _ Ho). apply IH; exact Hos.
Qed.

Lemma parseMount_loop_unrecognized
      (pre : list string) (seg : string) (post : list string)
      (m : DockerMount) :
  forallb recognized pre = true ->
  recognized seg = false ->
  parseMount_loop (pre ++ seg :: post) m = Thrown (unhandled (key_of seg)).
Proof.
  revert m. induction pre as [|o os IH]; intros m Hpre Hseg; simpl in *.
  - rewrite (parseMount_option_unrecognized _ _ Hseg). reflexivity.
  - apply andb_true_iff in Hpre as [Ho Hos].
    rewrite (parseMount_option_recognized _ _ Ho). apply IH; assumption.
Qed.

(** A parse yields a record exactly when every segment is recognized. *)
Lemma mount_of_parseMount_loop (os : list string) (m : DockerMount) :
  mount_of (parseMount_loop os m)
  = if forallb recognized os then Some (fold_left assign os m) else None.
Proof.
  revert m. induction os as [|o os IH]; intros m; simpl.
  - reflexivity.
  - destruct (recognized o) eqn:Ho; simpl.
    + rewrite (parseMount_option_recognized _ _ Ho). apply IH.
    + rewrite (parseMount_option_unrecognized _ _ Ho). reflexivity.
Qed.

(** *** Segments of the form [key=value] *)

Lemma has_char_app (c : ascii) (a b : string) :
  has_char c (a ++ b) = has_char c a || has_char c b.
Proof.
  induction a as [|d a IH]; simpl; [reflexivity|].
  rewrite IH. apply orb_assoc.
Qed.

Lemma before_app_sep (c : ascii) (a b : string) :
  has_char c a = false -> before c (a ++ String c b) = a.
Proof.
  induction a as [|d a IH]; simpl.
  - intros _. rewrite Ascii.eqb_refl. reflexivity.
  - intros H. apply orb_false_iff in H as [Hd Ha].
    rewrite Hd, (IH Ha). reflexivity.
Qed.

Lemma field_of_key_In (k : string) (f : MountField) :
  field_of_key k = Some f ->
  In k ["type"; "src"; "source"; "dst"; "destination"; "target"].
Proof.
  unfold field_of_key.
  destruct (String.eqb_spec k "type") as [->|_]; [simpl; tauto|].
  destruct (String.eqb_spec k "src") as [->|_]; [simpl; tauto|].
  destruct (String.eqb_spec k "source") as [->|_]; [simpl; tauto|].
  destruct (String.eqb_spec k "dst") as [->|_]; [simpl; tauto|].
  destruct (String.eqb_spec k "destination") as [->|_]; [simpl; tauto|].
  destruct (String.eqb_spec k "target") as [->|_]; [simpl; tauto|].
  discriminate.
Qed.

(** The value-bearing keys contain neither separator. *)
Lemma field_key_plain (k : string) (f : MountField) :
  field_of_key k = Some f ->
  has_char "=" k = false /\ has_char "," k = false.
Proof.
  intros H. apply field_of_key_In in H. simpl in H.
  repeat (destruct H as [<-|H]; [split; reflexivity|]). destruct H.
Qed.

Section KeyValueSegment.

Variables (k v : string) (f : MountField).
Hypothesis Hk : field_of_key k = Some f.
Hypothesis Hv : has_char "=" v = false.

Lemma key_of_segment : key_of (segment (k, v)) = k.
Proof.
  unfold key_of, segment. simpl.
  apply before_app_sep. apply (field_key_plain _ _ Hk).
Qed.

Lemma value_of_segment : value_of (segment (k, v)) = JsString v.
Proof.
  unfold value_of, segment. simpl.
  rewrite split_app_sep by apply (field_key_plain _ _ Hk).
  rewrite (split_no_sep _ _ Hv). reflexivity.
Qed.

Lemma recognized_segment : recognized (segment (k, v)) = true.
Proof.
  unfold recognized. rewrite key_of_segment, recognized_key_cases, Hk.
  reflexivity.
Qed.

Lemma assign_segment (m : DockerMount) :
  assign m (segment (k, v)) = set_field f (JsString v) m.
Proof.
  unfold assign. rewrite key_of_segment, Hk, value_of_segment. reflexivity.
Qed.

Lemma segment_no_comma :
  has_char "," v = false -> has_char "," (segment (k, v)) = false.
Proof.
  intros Hc. unfold segment. simpl. rewrite has_char_app. simpl.
  rewrite Hc. destruct (field_key_plain _ _ Hk) as [_ ->]. reflexivity.
Qed.

End KeyValueSegment.

Lemma get_set_field (f g : MountField) (x : JsValue) (m : DockerMount) :
  get_field f (set_field g x m)
  = if MountField_eqb f g then x else get_field f m.
Proof. destruct f, g; reflexivity. Qed.

Lemma MountField_eqb_eq (f g : MountField) :
  MountField_eqb f g = true <-> f = g.
Proof. destruct f, g; simpl; split; intros; congruence. Qed.

Lemma last_value_absent (f : MountField) (kvs : list (string * string))
      (acc : string) :
  (forall k v, In (k, v) kvs -> field_of_key k <> Some f) ->
  fold_left (last_value_step f) kvs acc = acc.
Proof.
  revert acc. induction kvs as [|[k v] kvs IH]; intros acc H; simpl.
  - reflexivity.
  - rewrite IH by (intros k' v' Hin; apply (H k' v'); right; exact Hin).
    unfold last_value_step. simpl.
    destruct (field_of_key k) as [g|] eqn:Hg; [|reflexivity].
    destruct (MountField_eqb f g) eqn:E; [|reflexivity].
    apply MountField_eqb_eq in E. subst g.
    destruct (H k v); [left; reflexivity | exact Hg].
Qed.

Lemma last_value_agreed (f : MountField) (kvs : list (string * string))
      (acc v : string) :
  (forall k' v', In (k', v') kvs -> field_of_key k' = Some f -> v' = v) ->
  acc = v \/ (exists k, In (k, v) kvs /\ field_of_key k = Some f) ->
  fold_left (last_value_step f) kvs acc = v.
Proof.
  revert acc. induction kvs as [|[k1 v1] kvs IH]; intros acc Hall Hex; simpl.
  - destruct Hex as [->|[k [[] _]]]. reflexivity.
  - apply IH;
      [intros k' v' Hin Hk'; apply (Hall k' v'); [right|]; assumption|].
    unfold last_value_step. simpl.
    destruct (field_of_key k1) as [g|] eqn:Hg.
    + destruct (MountField_eqb f g) eqn:E.
      * apply MountField_eqb_eq in E. subst g. left.
        apply (Hall k1 v1); [left; reflexivity | exact Hg].
      * destruct Hex as [->|[k [[Heq|Hin] Hk]]]; [left; reflexivity | |].
        -- inversion Heq; subst. rewrite Hk in Hg. inversion Hg; subst.
           destruct g; discriminate.
        -- right. exists k. split; assumption.
    + destruct Hex as [->|[k [[Heq|Hin] Hk]]]; [left; reflexivity | |].
      * inversion Heq; subst. congruence.
      * right. exists k. split; assumption.
Qed.

(** The loop over [key=value] segments computes [last_value] field by
    field. *)
Lemma fold_assign_segments (kvs : list (string * string)) :
  (forall k v, In (k, v) kvs ->
     field_of_key k <> None /\ has_char "=" v = false) ->
  forall (f : MountField) (m : DockerMount) (acc : string),
    get_field f m = JsString acc ->
    get_field f (fold_left assign (map segment kvs) m)
    = JsString (fold_left (last_value_step f) kvs acc).
Proof.
  induction kvs as [|[k v] kvs IH]; intros H f m acc Hm; simpl.
  - exact Hm.
  - destruct (H k v (or_introl eq_refl)) as [Hk Hv].
    destruct (field_of_key k) as [g|] eqn:Hg; [|congruence].
    apply IH; [intros k' v' Hin; apply H; right; exact Hin|].
    rewrite (assign_segment _ _ _ Hg Hv), get_set_field.
    unfold last_value_step. simpl. rewrite Hg.
    destruct (MountField_eqb f g); [reflexivity | exact Hm].
Qed.

(* ================================================================== *)
(** ** Properties of [parseMount] *)

(** C1. A mount string made of [key=value] segments, every key one of
    [type], [src], [source], [dst], [destination], [target] and every value
    free of ["="] and [","], parses to a record: each field holds the value
    of the (last) segment whose key stands for it, a field whose keys do not
    occur is the empty string, and a field whose segments agree on one value
    holds that value. *)
Theorem parseMount_key_value_segments
        (kv : string * string) (kvs : list (string * string)) :
  (forall k v, In (k, v) (kv :: kvs) ->
     field_of_key k <> None
     /\ has_char "=" v = false /\ has_char "," v = false) ->
  exists m : DockerMount,
    parseMount (mount_string (kv :: kvs)) = Returned m
    /\ (forall f, get_field f m = JsString (last_value f (kv :: kvs)))
    /\ (forall f,
          (forall k v, In (k, v) (kv :: kvs) -> field_of_key k <> Some f) ->
          get_field f m = JsString "")
    /\ (forall f k v,
          In (k, v) (kv :: kvs) -> field_of_key k = Some f ->
          (forall k' v', In (k', v') (kv :: kvs) ->
             field_of_key k' = Some f -> v' = v) ->
          get_field f m = JsString v).
Proof.
  intros H. set (l := kv :: kvs) in *.
  assert (Hsplit : split "," (mount_string l) = map segment l).
  { unfold mount_string. apply split_join; [discriminate|].
    apply Forall_forall. intros o Ho. apply in_map_iff in Ho.
    destruct Ho as [[k v] [<- Hin]]. destruct (H k v Hin) as [Hk [_ Hc]].
    destruct (field_of_key k) as [g|] eqn:Hg; [|congruence].
    apply (segment_no_comma _ _ _ Hg Hc). }
  assert (Hrec : forallb recognized (map segment l) = true).
  { apply forallb_forall. intros o Ho. apply in_map_iff in Ho.
    destruct Ho as [[k v] [<- Hin]]. destruct (H k v Hin) as [Hk [Hv _]].
    destruct (field_of_key k) as [g|] eqn:Hg; [|congruence].
    apply (recognized_segment _ v _ Hg). }
  assert (Hfields : forall f,
             get_field f (fold_left assign (map segment l) empty_mount)
             = JsString (last_value f l)).
  { intros f. apply fold_assign_segments.
    - intros k v Hin. destruct (H k v Hin) as [Hk [Hv _]]. split; assumption.
    - destruct f; reflexivity. }
  exists (fold_left assign (map segment l) empty_mount).
  split; [|split; [exact Hfields | split]].
  - unfold parseMount. rewrite Hsplit.
    apply parseMount_loop_recognized. exact Hrec.
  - intros f Habs. rewrite Hfields. f_equal.
    apply last_value_absent. exact Habs.
  - intros f k v Hin Hk Hall. rewrite Hfields. f_equal.
    apply last_value_agreed; [exact Hall|].
    right. exists k. split; assumption.
Qed.

Lemma parseMount_key_value_segments_witness :
  parseMount "type=bind,source=/a,target=/b"
  = Returned (mkDockerMount (JsString "bind") (JsString "/a") (JsString "/b"))
  /\ parseMount "src=home-cache,target=/home/vscode/.cache"
     = Returned (mkDockerMount (JsString "") (JsString "home-cache")
                   (JsString "/home/vscode/.cache")).
Proof.
  split.
  - destruct (parseMount_key_value_segments
                ("type", "bind") [("source", "/a"); ("target", "/b")])
      as [m [Hm [Hf _]]].
    { intros k v Hin. simpl in Hin.
      destruct Hin as [E|[E|[E|[]]]]; inversion E; subst;
        (split; [discriminate | split; reflexivity]). }
    transitivity (Returned m); [exact Hm|].
    pose proof (Hf FType) as H1. pose proof (Hf FSource) as H2.
    pose proof (Hf FTarget) as H3. destruct m; simpl in H1, H2, H3.
    rewrite H1, H2, H3. reflexivity.
  - destruct (parseMount_key_value_segments
                ("src", "home-cache") [("target", "/home/vscode/.cache")])
      as [m [Hm [Hf _]]].
    { intros k v Hin. simpl in Hin.
      destruct Hin as [E|[E|[]]]; inversion E; subst;
        (split; [discriminate | split; reflexivity]). }
    transitivity (Returned m); [exact Hm|].
    pose proof (Hf FType) as H1. pose proof (Hf FSource) as H2.
    pose proof (Hf FTarget) as H3. destruct m; simpl in H1, H2, H3.
    rewrite H1, H2, H3. reflexivity.
Defined.

Lemma first_unrecognized (l : list string) (bad : string) :
  In bad l -> recognized bad = false ->
  exists pre seg post,
    l = (pre ++ seg :: post)%list
    /\ forallb recognized pre = true /\ recognized seg = false.
Proof.
  induction l as [|o l IH]; intros Hin Hbad; [destruct Hin|].
  destruct (recognized o) eqn:Ho.
  - destruct Hin as [->|Hin]; [congruence|].
    destruct (IH Hin Hbad) as (pre & seg & post & -> & Hpre & Hseg).
    exists (o :: pre), seg, post. simpl. rewrite Ho, Hpre. auto.
  - exists [], o, l. auto.
Qed.

(** C2. A mount string with a segment whose key is none of the eight
    accepted keys does not parse: [parseMount] throws
    [Unhandled mount option '<key>'] for the key of the first such segment,
    returns no record, and what follows that segment plays no part: any
    string that agrees with it up to and including that segment fails in
    the same way. *)
Theorem parseMount_unrecognized_key (s bad : string) :
  In bad (split "," s) ->
  recognized_key (key_of bad) = false ->
  exists (pre : list string) (seg : string) (post : list string),
    split "," s = (pre ++ seg :: post)%list
    /\ Forall (fun o => recognized_key (key_of o) = true) pre
    /\ recognized_key (key_of seg) = false
    /\ parseMount s = Thrown ("Unhandled mount option '" ++ key_of seg ++ "'")
    /\ (forall m, parseMount s <> Returned m)
    /\ (forall s',
          firstn (S (length pre)) (split "," s') = (pre ++ [seg])%list ->
          parseMount s'
          = Thrown ("Unhandled mount option '" ++ key_of seg ++ "'")).
Proof.
  intros Hin Hbad.
  destruct (first_unrecognized _ _ Hin Hbad)
    as (pre & seg & post & Hs & Hpre & Hseg).
  exists pre, seg, post.
  assert (Hfail : parseMount s = Thrown (unhandled (key_of seg))).
  { unfold parseMount. rewrite Hs.
    apply parseMount_loop_unrecognized; assumption. }
  repeat split.
  - exact Hs.
  - apply Forall_forall. intros o Ho.
    apply (proj1 (forallb_forall _ _) Hpre o Ho).
  - exact Hseg.
  - exact Hfail.
  - intros m Hm. rewrite Hfail in Hm. discriminate.
  - intros s' Hs'. unfold parseMount.
    rewrite <- (firstn_skipn (S (length pre)) (split "," s')), Hs'.
    rewrite <- app_assoc. simpl.
    apply parseMount_loop_unrecognized; assumption.
Qed.

Lemma parseMount_unrecognized_key_witness :
  In "unknown=x" (split "," "type=bind,unknown=x")
  /\ recognized_key (key_of "unknown=x") = false
  /\ parseMount "type=bind,unknown=x"
     = Thrown "Unhandled mount option 'unknown'".
Proof.
  assert (Hin : In "unknown=x" (split "," "type=bind,unknown=x")).
  { simpl. right. left. reflexivity. }
  assert (Hbad : recognized_key (key_of "unknown=x") = false)
    by reflexivity.
  split; [exact Hin | split; [exact Hbad|]].
  destruct (parseMount_unrecognized_key _ _ Hin Hbad)
    as (pre & seg & post & Hs & Hpre & Hseg & Hfail & _).
  rewrite Hfail.
  destruct pre as [|p [|q pre]]; simpl in Hs; inversion Hs; subst.
  - discriminate Hseg.
  - reflexivity.
  - destruct pre; discriminate.
Defined.

(** *** Order of the segments *)

Lemma forallb_Permutation {A : Type} (p : A -> bool) {l l' : list A} :
  Permutation l l' -> forallb p l = forallb p l'.
Proof.
  induction 1 as [|x l l' _ IH|x y l|l l' l'' _ IH1 _ IH2]; simpl.
  - reflexivity.
  - rewrite IH. reflexivity.
  - destruct (p x), (p y); reflexivity.
  - congruence.
Qed.

(** Two segments that do not assign the same field can be read in either
    order. *)
Lemma assign_comm (m : DockerMount) (a b : string) :
  (forall f, field_of_key (key_of a) = Some f ->
             field_of_key (key_of b) = Some f -> False) ->
  assign (assign m a) b = assign (assign m b) a.
Proof.
  unfold assign. intros H.
  destruct (field_of_key (key_of a)) as [f|], (field_of_key (key_of b)) as [g|];
    try reflexivity.
  destruct f, g; try reflexivity; destruct (H _ eq_refl eq_refl).
Qed.

Lemma assigned_fields_Permutation (l l' : list string) :
  Permutation l l' -> Permutation (assigned_fields l) (assigned_fields l').
Proof. apply Permutation_flat_map. Qed.

Lemma fold_assign_Permutation {l l' : list string} :
  Permutation l l' ->
  NoDup (assigned_fields l) ->
  forall m, fold_left assign l m = fold_left assign l' m.
Proof.
  induction 1 as [|x l l' Hp IH|x y l|l l' l'' Hp1 IH1 Hp2 IH2];
    intros Hnd m.
  - reflexivity.
  - simpl. apply IH.
    unfold assigned_fields in *. simpl in Hnd.
    apply NoDup_app_remove_l in Hnd. exact Hnd.
  - simpl. f_equal. apply assign_comm. intros f Hy Hx.
    unfold assigned_fields in Hnd. simpl in Hnd. rewrite Hy, Hx in Hnd.
    simpl in Hnd. inversion Hnd as [|? ? Hnotin _]; subst.
    apply Hnotin. left. reflexivity.
  - rewrite (IH1 Hnd m). apply IH2.
    apply (Permutation_NoDup (assigned_fields_Permutation _ _ Hp1) Hnd).
Qed.

(** C8. Two mount strings whose segments are permutations of each other,
    no two segments assigning the same field (aliases counted as the same
    key), parse alike: one yields a record exactly when the other does,
    and then it is the same record; when every key is recognized both do
    yield one. *)
Theorem parseMount_segment_order (s1 s2 : string) :
  Permutation (split "," s1) (split "," s2) ->
  NoDup (assigned_fields (split "," s1)) ->
  mount_of (parseMount s1) = mount_of (parseMount s2)
  /\ (forall m, parseMount s1 = Returned m <-> parseMount s2 = Returned m)
  /\ (Forall (fun o => recognized_key (key_of o) = true) (split "," s1) ->
      exists m, parseMount s1 = Returned m /\ parseMount s2 = Returned m).
Proof.
  intros Hp Hnd.
  assert (Hof : mount_of (parseMount s1) = mount_of (parseMount s2)).
  { unfold parseMount. rewrite !mount_of_parseMount_loop.
    rewrite (forallb_Permutation recognized Hp).
    rewrite (fold_assign_Permutation Hp Hnd). reflexivity. }
  split; [exact Hof | split].
  - intros m. destruct (parseMount s1), (parseMount s2); simpl in Hof;
      split; intros E; congruence.
  - intros Hall.
    assert (H1 : forallb recognized (split "," s1) = true).
    { apply forallb_forall. apply (proj1 (Forall_forall _ _) Hall). }
    assert (H2 : forallb recognized (split "," s2) = true).
    { rewrite <- (forallb_Permutation recognized Hp). exact H1. }
    exists (fold_left assign (split "," s1) empty_mount). split.
    + apply parseMount_loop_recognized. exact H1.
    + rewrite (fold_assign_Permutation Hp Hnd).
      apply parseMount_loop_recognized. exact H2.
Qed.

Lemma parseMount_segment_order_witness :
  Permutation (split "," "target=/b,source=/a")
              (split "," "source=/a,target=/b")
  /\ NoDup (assigned_fields (split "," "target=/b,source=/a"))
  /\ parseMount "target=/b,source=/a" = parseMount "source=/a,target=/b".
Proof.
  assert (Hp : Permutation (split "," "target=/b,source=/a")
                           (split "," "source=/a,target=/b"))
    by apply perm_swap.
  assert (Hnd : NoDup (assigned_fields (split "," "target=/b,source=/a"))).
  { simpl. constructor.
    - simpl. intros [E|[]]. discriminate E.
    - constructor; [intros [] | constructor]. }
  split; [exact Hp | split; [exact Hnd|]].
  destruct (parseMount_segment_order _ _ Hp Hnd) as (_ & _ & Hboth).
  destruct Hboth as (m & -> & ->); [|reflexivity].
  repeat constructor.
Defined.

(** *** Read-only segments *)

Lemma readonly_key_no_field (k : string) :
  readonly_key k = true -> field_of_key k = None.
Proof.
  unfold readonly_key. intros H. apply orb_true_iff in H.
  destruct H as [H|H]; apply String.eqb_eq in H; subst; reflexivity.
Qed.

Lemma parseMount_option_readonly (o : string) (m : DockerMount) :
  readonly_key (key_of o) = true -> parseMount_option o m = Returned m.
Proof.
  intros H. rewrite parseMount_option_cases.
  rewrite (readonly_key_no_field _ H), H. reflexivity.
Qed.

Lemma parseMount_loop_readonly
      (pre : list string) (seg : string) (post : list string)
      (m : DockerMount) :
  readonly_key (key_of seg) = true ->
  parseMount_loop (pre ++ seg :: post) m = parseMount_loop (pre ++ post) m.
Proof.
  intros H. revert m. induction pre as [|o pre IH]; intros m; simpl.
  - rewrite (parseMount_option_readonly _ _ H). reflexivity.
  - destruct (parseMount_option o m); [apply IH | reflexivity].
Qed.

(** C9, as stated, fails when the read-only segment is the whole mount
    string: ["ro"] parses to the record of empty strings, while the string
    left after removing the segment is empty and does not parse. *)
Lemma parseMount_readonly_removed_counterexample :
  parseMount (join "," ([] ++ "ro" :: [])) = Returned empty_mount
  /\ parseMount (join "," ([] ++ []))
     = Thrown "Unhandled mount option ''"
  /\ ~ (forall (pre : list string) (seg : string) (post : list string),
          Forall (fun o => has_char "," o = false) (pre ++ seg :: post) ->
          readonly_key (key_of seg) = true ->
          mount_of (parseMount (join "," (pre ++ seg :: post)))
          = mount_of (parseMount (join "," (pre ++ post)))).
Proof.
  split; [reflexivity | split; [reflexivity|]].
  intros H. specialize (H [] "ro" []). simpl in H.
  assert (E : Some empty_mount = None).
  { apply H; [|reflexivity]. constructor; [reflexivity | constructor]. }
  discriminate E.
Qed.

(** C9, amended. In a mount string with other segments besides it, a
    segment whose key is [readonly] or [ro], with or without a value, can
    be removed without changing what [parseMount] does, be it the record
    returned or the error thrown; a mount string that is only such a segment
    parses to the record of empty strings. *)
Theorem parseMount_readonly_segment
        (s : string) (pre : list string) (seg : string) (post : list string) :
  split "," s = (pre ++ seg :: post)%list ->
  readonly_key (key_of seg) = true ->
  ((pre ++ post)%list <> [] ->
   parseMount s = parseMount (join "," (pre ++ post)))
  /\ ((pre ++ post)%list = [] -> parseMount s = Returned empty_mount).
Proof.
  intros Hs Hro. split.
  - intros Hne. unfold parseMount at 2.
    rewrite split_join; [| exact Hne |].
    + unfold parseMount. rewrite Hs. apply parseMount_loop_readonly. exact Hro.
    + apply Forall_forall. intros o Ho.
      apply (split_pieces_no_sep "," s). rewrite Hs.
      apply in_app_or in Ho. apply in_or_app.
      destruct Ho; [left | right; right]; assumption.
  - intros Hnil. apply app_eq_nil in Hnil as [-> ->].
    unfold parseMount. rewrite Hs. simpl.
    rewrite (parseMount_option_readonly _ _ Hro). reflexivity.
Qed.

Lemma parseMount_readonly_segment_witness :
  split "," "type=bind,readonly,src=/a,dst=/b"
  = (["type=bind"] ++ "readonly" :: ["src=/a"; "dst=/b"])%list
  /\ readonly_key (key_of "readonly") = true
  /\ parseMount "type=bind,readonly,src=/a,dst=/b"
     = parseMount "type=bind,src=/a,dst=/b"
  /\ parseMount "ro=true" = Returned empty_mount.
Proof.
  split; [reflexivity | split; [reflexivity | split]].
  - apply (proj1 (parseMount_readonly_segment
                    "type=bind,readonly,src=/a,dst=/b"
                    ["type=bind"] "readonly" ["src=/a"; "dst=/b"]
                    eq_refl eq_refl)).
    discriminate.
  - apply (proj2 (parseMount_readonly_segment
                    "ro=true" [] "ro=true" [] eq_refl eq_refl)).
    reflexivity.
Defined.

(* ================================================================== *)
(** ** Lemmas on the effects *)

Lemma skipn_length_app {A : Type} (l l' : list A) :
  skipn (length l) (l ++ l') = l'.
Proof. induction l as [|x l IH]; simpl; [reflexivity | exact IH]. Qed.

Lemma skipn_length {A : Type} (l : list A) : skipn (length l) l = [].
Proof. induction l as [|x l IH]; simpl; [reflexivity | exact IH]. Qed.

Lemma fold_left_push {A : Type} (item : A -> list string) (l : list A)
      (args : list string) :
  fold_left (fun acc x => push acc (item x)) l args
  = (args ++ flat_map item l)%list.
Proof.
  revert args. induction l as [|x l IH]; intros args; simpl.
  - rewrite app_nil_r. reflexivity.
  - rewrite IH. unfold push. rewrite <- app_assoc. reflexivity.
Qed.

Section CheckedExec.

Variable engine : string -> list string -> Z.

Lemma checked_exec_run (failure : string) (args : list string) (w : World) :
  checked_exec engine failure args w
  = (if Z.eqb (engine "docker" args) 0 then Returned tt
     else Thrown (failure ++ number_to_string (engine "docker" args)),
     mkWorld (invocations w ++ [mkInvocation "docker" args]) (console w)).
Proof.
  unfold checked_exec, bind, runner, throw, ret.
  destruct (Z.eqb (engine "docker" args) 0); reflexivity.
Qed.

Lemma exit_code_checked_outcome (what : string) (code : Z) :
  exit_code_checked what code
    (if Z.eqb code 0 then Returned tt
     else Thrown ((what ++ " failed with ") ++ number_to_string code)).
Proof.
  split.
  - intros ->. reflexivity.
  - intros Hne. apply Z.eqb_neq in Hne. rewrite Hne.
    exists ((what ++ " failed with ") ++ number_to_string code).
    split; [reflexivity | split].
    + clear. induction what as [|a what IH]; simpl; [reflexivity|].
      f_equal. exact IH.
    + apply includes_suffix.
Qed.

Lemma translates_thrown (what e : string) (w w' : World) :
  invocations w' = invocations w ->
  translates engine what w (Thrown e, w').
Proof.
  intros H i Hin. unfold new_invocations in Hin. simpl in Hin.
  rewrite H, skipn_length in Hin. destruct Hin.
Qed.

Lemma translates_checked_exec (what : string) (args : list string)
      (w w1 : World) :
  invocations w1 = invocations w ->
  translates engine what w
    (checked_exec engine (what ++ " failed with ") args w1).
Proof.
  intros H i Hin. rewrite checked_exec_run in *.
  unfold new_invocations in Hin. cbn [snd fst invocations] in *.
  rewrite H, skipn_length_app in Hin.
  destruct Hin as [<-|[]]. cbn [inv_command inv_args].
  apply exit_code_checked_outcome.
Qed.

End CheckedExec.

(* ================================================================== *)
(** ** Properties of the orchestration functions *)

Section DockerProperties.

Variable path_join : list string -> string.
Variable getAbsolutePath : string -> string -> string.
Variable cwd : string.
Variable substituteValues : string -> string.
Variable existsSync : JsValue -> bool.
Variable loadFromFile : string -> Outcome DevContainerConfig.
Variable getDockerfile : DevContainerConfig -> option string.
Variable getContext : DevContainerConfig -> option string.
Variable getWorkspaceFolder : DevContainerConfig -> string -> string.
Variable getRemoteUser : DevContainerConfig -> string.

(** The exit codes the container engine answers with. *)
Variable engine : string -> list string -> Z.

Local Abbreviation buildImage' :=
  (buildImage path_join substituteValues loadFromFile getDockerfile
     getContext).
Local Abbreviation runContainer' :=
  (runContainer path_join getAbsolutePath cwd substituteValues existsSync
     loadFromFile getWorkspaceFolder getRemoteUser).
Local Abbreviation devcontainer_json folder :=
  (path_join [folder; ".devcontainer/devcontainer.json"]).

(** *** [isDockerBuildXInstalled] *)

(** C10. [isDockerBuildXInstalled] runs [docker buildx --help], once and
    nothing else, and returns [true] exactly when the exit code of that
    run is [0]. *)
Theorem isDockerBuildXInstalled_spec (w : World) :
  exists (b : bool) (w' : World),
    isDockerBuildXInstalled (runner engine) w = (Returned b, w')
    /\ new_invocations w w' = [mkInvocation "docker" ["buildx"; "--help"]]
    /\ (b = true <-> engine "docker" ["buildx"; "--help"] = 0%Z).
Proof.
  eexists. eexists. split; [reflexivity | split].
  - unfold new_invocations. simpl. apply skipn_length_app.
  - apply Z.eqb_eq.
Qed.

(** *** [buildImage] *)

Lemma fold_left_buildImage_arg (entries : list (string * string))
      (args : list string) :
  fold_left (buildImage_arg substituteValues) entries args
  = (args ++ flat_map (build_arg_flags substituteValues) entries)%list.
Proof. apply (fold_left_push (build_arg_flags substituteValues)). Qed.

Lemma buildImage_with_dockerfile
      (imageName checkoutPath subFolder : string)
      (cfg : DevContainerConfig) (d : string) (w : World) :
  let folder := path_join [checkoutPath; subFolder] in
  loadFromFile (devcontainer_json folder) = Returned cfg ->
  getDockerfile cfg = Some d ->
  d <> "" ->
  buildImage' (runner engine) imageName checkoutPath subFolder w
  = checked_exec engine "build failed with "
      (["buildx"; "build";
        "--tag"; (imageName ++ ":latest")%string;
        "--cache-from";
        ("type=registry,ref=" ++ imageName ++ ":latest")%string;
        "--cache-to"; "type=inline";
        "--output=type=docker"]
       ++ flat_map (build_arg_flags substituteValues) (build_arg_entries cfg)
       ++ ["-f"; path_join [folder; ".devcontainer"; d];
           path_join [folder; ".devcontainer";
                      match getContext cfg with
                      | Some c => c
                      | None => ""
                      end]])%list
      w.
Proof.
  intros folder Hload Hd Hne. unfold buildImage.
  fold folder. unfold bind at 1. unfold lift. rewrite Hload, Hd.
  destruct (String.eqb_spec d "") as [E|_]; [contradiction|].
  unfold checked_exec, build_arg_entries.
  destruct (build_args cfg) as [entries|].
  - rewrite fold_left_buildImage_arg. unfold push.
    rewrite <- !app_assoc. reflexivity.
  - reflexivity.
Qed.

(** C5. With a Dockerfile configured, [buildImage] runs [docker] once, with
    these arguments in this order: [buildx build], [--tag <image>:latest],
    [--cache-from type=registry,ref=<image>:latest], [--cache-to type=inline],
    [--output=type=docker], one [--build-arg <name>=<substituted value>] per
    entry of [build.args] in the order of its keys, [-f <dockerfile path>]
    and last the context path. *)
Theorem buildImage_arguments
        (imageName checkoutPath subFolder : string)
        (cfg : DevContainerConfig) (d : string) (w : World) :
  let folder := path_join [checkoutPath; subFolder] in
  loadFromFile (devcontainer_json folder) = Returned cfg ->
  getDockerfile cfg = Some d ->
  d <> "" ->
  new_invocations w
    (snd (buildImage' (runner engine) imageName checkoutPath subFolder w))
  = [mkInvocation "docker"
       (["buildx"; "build";
         "--tag"; (imageName ++ ":latest")%string;
         "--cache-from";
         ("type=registry,ref=" ++ imageName ++ ":latest")%string;
         "--cache-to"; "type=inline";
         "--output=type=docker"]
        ++ flat_map (build_arg_flags substituteValues) (build_arg_entries cfg)
        ++ ["-f"; path_join [folder; ".devcontainer"; d];
            path_join [folder; ".devcontainer";
                       match getContext cfg with
                       | Some c => c
                       | None => ""
                       end]])%list].
Proof.
  intros folder Hload Hd Hne.
  rewrite (buildImage_with_dockerfile imageName _ _ _ _ w Hload Hd Hne).
  rewrite checked_exec_run. unfold new_invocations. cbn [snd invocations].
  apply skipn_length_app.
Qed.

(** C6. When the configuration sets no Dockerfile, [buildImage] throws an
    error saying that only Dockerfile-based dev containers are supported,
    whatever the process runner is, and leaves the world as it was: no
    process is started. *)
Theorem buildImage_without_dockerfile
        (imageName checkoutPath subFolder : string)
        (cfg : DevContainerConfig) :
  loadFromFile (devcontainer_json (path_join [checkoutPath; subFolder]))
  = Returned cfg ->
  truthy (getDockerfile cfg) = false ->
  (forall (exec : ExecFunction) (w : World),
      buildImage' exec imageName checkoutPath subFolder w
      = (Thrown dockerfile_not_set, w))
  /\ includes dockerfile_not_set
       "only supports Dockerfile-based dev containers" = true
  /\ (forall w : World,
        new_invocations w
          (snd (buildImage' (runner engine) imageName checkoutPath
                  subFolder w))
        = []).
Proof.
  intros Hload Hd.
  assert (Hthrow : forall (exec : ExecFunction) (w : World),
             buildImage' exec imageName checkoutPath subFolder w
             = (Thrown dockerfile_not_set, w)).
  { intros exec w. unfold buildImage, bind, lift. rewrite Hload.
    destruct (getDockerfile cfg) as [d|]; [|reflexivity].
    simpl in Hd. apply negb_false_iff in Hd. rewrite Hd. reflexivity. }
  split; [exact Hthrow | split; [reflexivity|]].
  intros w. rewrite Hthrow. unfold new_invocations. simpl.
  apply skipn_length.
Qed.

(** *** [runContainer] *)

Lemma runContainer_mount_parsed (m : string) (args : list string) (w : World) :
  parses m ->
  runContainer_mount existsSync m args w
  = if missing_bind_source existsSync m
    then (Returned args,
          mkWorld (invocations w) (console w ++ [skipping_message m]))
    else (Returned (args ++ ["--mount"; m])%list, w).
Proof.
  intros [mount Hm].
  unfold runContainer_mount, missing_bind_source, bind, lift. rewrite Hm.
  destruct (strict_eq (type mount) "bind"); [|reflexivity].
  destruct (existsSync (source mount)); reflexivity.
Qed.

Lemma runContainer_mounts_parsed (ms : list string) :
  Forall parses ms ->
  forall (args : list string) (w : World),
    runContainer_mounts existsSync ms args w
    = (Returned (args ++ flat_map (mount_flags existsSync) ms)%list,
       mkWorld (invocations w)
         (console w
          ++ map skipping_message
               (filter (missing_bind_source existsSync) ms))).
Proof.
  induction 1 as [|m ms Hm _ IH]; intros args w.
  - simpl. rewrite !app_nil_r. destruct w; reflexivity.
  - cbn [runContainer_mounts]. unfold bind.
    rewrite (runContainer_mount_parsed _ _ _ Hm).
    cbn [flat_map filter]. unfold mount_flags at 1.
    destruct (missing_bind_source existsSync m).
    + rewrite IH. cbn [invocations console map app].
      rewrite <- app_assoc. reflexivity.
    + rewrite IH. rewrite <- app_assoc. reflexivity.
Qed.

(** The mounts loop starts no process, whether it ends or throws. *)
Lemma runContainer_mounts_invocations (ms : list string) :
  forall (args : list string) (w : World),
    invocations (snd (runContainer_mounts existsSync ms args w))
    = invocations w.
Proof.
  induction ms as [|m ms IH]; intros args w; [reflexivity|].
  cbn [runContainer_mounts]. unfold bind.
  assert (H1 : invocations (snd (runContainer_mount existsSync m args w))
               = invocations w).
  { unfold runContainer_mount, bind, lift.
    destruct (parseMount m) as [mount|e]; [|reflexivity].
    destruct (strict_eq (type mount) "bind"); [|reflexivity].
    destruct (existsSync (source mount)); reflexivity. }
  destruct (runContainer_mount existsSync m args w) as [[args'|e] w1].
  - rewrite IH. exact H1.
  - exact H1.
Qed.

Lemma fold_left_runContainer_env (envs args : list string) :
  fold_left runContainer_env envs args
  = (args ++ flat_map env_flags envs)%list.
Proof. apply (fold_left_push env_flags). Qed.

(** C3. For a mount string that parses, the mounts loop of [runContainer]
    does one of two things: when the parsed type is [bind] and the parsed
    source does not exist it leaves the arguments as they are and prints one
    line; otherwise it appends [--mount] and the substituted mount string
    itself, without any check. Hence, when every mount string of the
    configuration parses, [runContainer] runs [docker] with the arguments
    below, the skipped mounts left out, and its outcome is decided by the
    exit code alone: a missing source never makes it fail. *)
Theorem runContainer_config_mounts
        (imageName checkoutPath subFolder command : string)
        (envs mounts' : option (list string))
        (cfg : DevContainerConfig) (w : World) :
  (forall (m : string) (args0 : list string) (w0 : World),
      parses m ->
      runContainer_mount existsSync m args0 w0
      = if missing_bind_source existsSync m
        then (Returned args0,
              mkWorld (invocations w0) (console w0 ++ [skipping_message m]))
        else (Returned (args0 ++ ["--mount"; m])%list, w0))
  /\
  let checkoutPathAbsolute := getAbsolutePath checkoutPath cwd in
  let folder := path_join [checkoutPathAbsolute; subFolder] in
  let workspaceFolder := getWorkspaceFolder cfg folder in
  let declared := map substituteValues (config_mounts cfg) in
  let args :=
    (["run"; "--mount";
      ("type=bind,src=" ++ checkoutPathAbsolute
       ++ ",dst=" ++ workspaceFolder)%string]
     ++ flat_map (mount_flags existsSync) declared
     ++ ["--workdir"; workspaceFolder; "--user"; getRemoteUser cfg]
     ++ map substituteValues (config_runArgs cfg)
     ++ flat_map env_flags match envs with Some es => es | None => [] end
     ++ [(imageName ++ ":latest")%string; "bash"; "-c";
         ("sudo chown -R $(whoami) . && " ++ command)%string])%list in
  loadFromFile (devcontainer_json folder) = Returned cfg ->
  Forall parses declared ->
  runContainer' (runner engine) imageName checkoutPath subFolder command
    envs mounts' w
  = (if Z.eqb (engine "docker" args) 0 then Returned tt
     else Thrown ("run failed with "
                  ++ number_to_string (engine "docker" args)),
     mkWorld
       (invocations w ++ [mkInvocation "docker" args])
       (console w
        ++ map skipping_message
             (filter (missing_bind_source existsSync) declared))).
Proof.
  split; [intros m args0 w0; apply runContainer_mount_parsed|].
  intros abs folder wf declared args Hload Hparse.
  unfold runContainer. fold abs. fold folder.
  unfold bind at 1. unfold lift. rewrite Hload. fold wf.
  unfold bind at 1.
  assert (Hloop :
    match mounts cfg with
    | Some ms =>
        runContainer_mounts existsSync (map substituteValues ms)
          (push ["run"]
             ["--mount"; "type=bind,src=" ++ abs ++ ",dst=" ++ wf])
    | None =>
        ret (push ["run"]
               ["--mount"; "type=bind,src=" ++ abs ++ ",dst=" ++ wf])
    end w
    = (Returned (["run"; "--mount";
                  ("type=bind,src=" ++ abs ++ ",dst=" ++ wf)%string]
                 ++ flat_map (mount_flags existsSync) declared)%list,
       mkWorld (invocations w)
         (console w
          ++ map skipping_message
               (filter (missing_bind_source existsSync) declared)))).
  { subst declared. unfold config_mounts in *.
    destruct (mounts cfg) as [ms|].
    - rewrite (runContainer_mounts_parsed _ Hparse). reflexivity.
    - unfold ret. simpl. rewrite app_nil_r. destruct w; reflexivity. }
  rewrite Hloop.
  change (bind (runner engine "docker" ?a) ?k ?w1)
    with (checked_exec engine "run failed with " a w1).
  rewrite checked_exec_run. cbn [invocations console].
  replace (push _ _) with args; [reflexivity|].
  subst args. unfold push, config_runArgs.
  destruct (runArgs cfg) as [ras|], envs as [es|];
    rewrite ?fold_left_runContainer_env; simpl;
    rewrite <- ?app_assoc; simpl; rewrite ?app_nil_r; reflexivity.
Qed.

(** C7. The [mounts] argument of [runContainer] is never read: two calls
    that differ in it alone do the same, and with the recording runner
    start the same process with the same arguments. *)
Theorem runContainer_mounts_argument_unused
        (exec : ExecFunction)
        (imageName checkoutPath subFolder command : string)
        (envs mounts1 mounts2 : option (list string)) (w : World) :
  runContainer' exec imageName checkoutPath subFolder command envs mounts1 w
  = runContainer' exec imageName checkoutPath subFolder command envs mounts2 w
  /\ new_invocations w
       (snd (runContainer' (runner engine) imageName checkoutPath subFolder
               command envs mounts1 w))
     = new_invocations w
         (snd (runContainer' (runner engine) imageName checkoutPath subFolder
                 command envs mounts2 w)).
Proof. split; reflexivity. Qed.

(** *** Exit codes *)

Lemma buildImage_translates
      (imageName checkoutPath subFolder : string) (w : World) :
  translates engine "build" w
    (buildImage' (runner engine) imageName checkoutPath subFolder w).
Proof.
  destruct (loadFromFile
              (devcontainer_json (path_join [checkoutPath; subFolder])))
    as [cfg|e] eqn:Hload.
  - destruct (getDockerfile cfg) as [d|] eqn:Hd.
    + destruct (String.eqb_spec d "") as [E|Hne].
      * unfold buildImage, bind, lift. rewrite Hload, Hd. subst d.
        apply translates_thrown. reflexivity.
      * rewrite (buildImage_with_dockerfile imageName _ _ _ _ w Hload Hd Hne).
        apply (translates_checked_exec engine "build"). reflexivity.
    + unfold buildImage, bind, lift. rewrite Hload, Hd.
      apply translates_thrown. reflexivity.
  - unfold buildImage, bind, lift. rewrite Hload.
    apply translates_thrown. reflexivity.
Qed.

Lemma runContainer_translates
      (imageName checkoutPath subFolder command : string)
      (envs mounts' : option (list string)) (w : World) :
  translates engine "run" w
    (runContainer' (runner engine) imageName checkoutPath subFolder command
       envs mounts' w).
Proof.
  unfold runContainer. unfold bind at 1. unfold lift.
  destruct (loadFromFile _) as [cfg|e];
    [|apply translates_thrown; reflexivity].
  unfold bind at 1.
  match goal with
  | |- context [match ?loop w with _ => _ end] =>
      assert (Hinv : invocations (snd (loop w)) = invocations w);
      [| destruct (loop w) as [[args|e] w1] ]
  end.
  - destruct (mounts cfg) as [ms|];
      [apply runContainer_mounts_invocations | reflexivity].
  - change (bind (runner engine "docker" ?a) ?k ?w1)
      with (checked_exec engine ("run" ++ " failed with ") a w1).
    apply translates_checked_exec. exact Hinv.
  - apply translates_thrown. exact Hinv.
Qed.

Lemma pushImage_run (imageName : string) (w : World) :
  pushImage (runner engine) imageName w
  = checked_exec engine "push failed with "
      ["push"; (imageName ++ ":latest")%string] w.
Proof. reflexivity. Qed.

Lemma checked_exec_invocation (failure : string) (args : list string)
      (w w1 : World) :
  invocations w1 = invocations w ->
  new_invocations w (snd (checked_exec engine failure args w1))
  = [mkInvocation "docker" args].
Proof.
  intros H. rewrite checked_exec_run. unfold new_invocations.
  cbn [snd invocations]. rewrite H. apply skipn_length_app.
Qed.

(** With the configuration loaded and its mounts parsed, [runContainer]
    comes to its last step: the checked run of [docker]. *)
Lemma runContainer_reaches_runner
      (imageName checkoutPath subFolder command : string)
      (envs mounts' : option (list string))
      (cfg : DevContainerConfig) (w : World) :
  loadFromFile
    (devcontainer_json
       (path_join [getAbsolutePath checkoutPath cwd; subFolder]))
  = Returned cfg ->
  Forall parses (map substituteValues (config_mounts cfg)) ->
  exists (args : list string) (w1 : World),
    invocations w1 = invocations w
    /\ runContainer' (runner engine) imageName checkoutPath subFolder
         command envs mounts' w
       = checked_exec engine "run failed with " args w1.
Proof.
  intros Hload Hparse.
  unfold runContainer. unfold bind at 1. unfold lift. rewrite Hload.
  unfold bind at 1. unfold config_mounts in Hparse.
  destruct (mounts cfg) as [ms|].
  - rewrite (runContainer_mounts_parsed _ Hparse).
    eexists. eexists. split; [|reflexivity]. reflexivity.
  - unfold ret at 1.
    eexists. eexists. split; [|reflexivity]. reflexivity.
Qed.

(** C4. Each of [buildImage], [runContainer] and [pushImage] translates the
    exit code of the process it runs: it returns when the code is [0] and
    otherwise throws [<build|run|push> failed with <code>], a message that
    includes the code. [buildImage] runs [docker], once, whenever the
    configuration is loaded and sets a Dockerfile; [runContainer] does
    whenever the configuration is loaded and its mount strings parse;
    [pushImage] always runs [docker push <image>:latest]. In each case the
    outcome of the call is the translation of that run's exit code; and no
    process is ever run without its exit code being translated so. *)
Theorem exit_code_translation :
  (forall (imageName checkoutPath subFolder : string)
          (cfg : DevContainerConfig) (d : string) (w : World),
      loadFromFile
        (devcontainer_json (path_join [checkoutPath; subFolder]))
      = Returned cfg ->
      getDockerfile cfg = Some d ->
      d <> "" ->
      exists args : list string,
        new_invocations w
          (snd (buildImage' (runner engine) imageName checkoutPath
                  subFolder w))
        = [mkInvocation "docker" args]
        /\ exit_code_checked "build" (engine "docker" args)
             (fst (buildImage' (runner engine) imageName checkoutPath
                     subFolder w)))
  /\ (forall (imageName checkoutPath subFolder command : string)
             (envs mounts' : option (list string))
             (cfg : DevContainerConfig) (w : World),
         loadFromFile
           (devcontainer_json
              (path_join [getAbsolutePath checkoutPath cwd; subFolder]))
         = Returned cfg ->
         Forall parses (map substituteValues (config_mounts cfg)) ->
         exists args : list string,
           new_invocations w
             (snd (runContainer' (runner engine) imageName checkoutPath
                     subFolder command envs mounts' w))
           = [mkInvocation "docker" args]
           /\ exit_code_checked "run" (engine "docker" args)
                (fst (runContainer' (runner engine) imageName checkoutPath
                        subFolder command envs mounts' w)))
  /\ (forall (imageName : string) (w : World),
         let i := mkInvocation "docker"
                    ["push"; (imageName ++ ":latest")%string] in
         new_invocations w (snd (pushImage (runner engine) imageName w))
         = [i]
         /\ exit_code_checked "push" (engine (inv_command i) (inv_args i))
              (fst (pushImage (runner engine) imageName w)))
  /\ (forall (imageName checkoutPath subFolder : string) (w : World)
             (i : Invocation),
         In i (new_invocations w
                 (snd (buildImage' (runner engine) imageName checkoutPath
                         subFolder w))) ->
         exit_code_checked "build" (engine (inv_command i) (inv_args i))
           (fst (buildImage' (runner engine) imageName checkoutPath
                   subFolder w)))
  /\ (forall (imageName checkoutPath subFolder command : string)
             (envs mounts' : option (list string)) (w : World)
             (i : Invocation),
         In i (new_invocations w
                 (snd (runContainer' (runner engine) imageName checkoutPath
                         subFolder command envs mounts' w))) ->
         exit_code_checked "run" (engine (inv_command i) (inv_args i))
           (fst (runContainer' (runner engine) imageName checkoutPath
                   subFolder command envs mounts' w))).
Proof.
  split; [|split; [|split; [|split]]].
  - intros imageName checkoutPath subFolder cfg d w Hload Hd Hne.
    rewrite (buildImage_with_dockerfile imageName _ _ _ _ w Hload Hd Hne).
    eexists. split.
    + apply checked_exec_invocation. reflexivity.
    + rewrite checked_exec_run. cbn [fst].
      apply (exit_code_checked_outcome "build").
  - intros imageName checkoutPath subFolder command envs mounts' cfg w
           Hload Hparse.
    destruct (runContainer_reaches_runner imageName checkoutPath subFolder
                command envs mounts' cfg w Hload Hparse)
      as (args & w1 & Hinv & ->).
    exists args. split.
    + apply checked_exec_invocation. exact Hinv.
    + rewrite checked_exec_run. cbn [fst].
      apply (exit_code_checked_outcome "run").
  - intros imageName w i. rewrite pushImage_run, checked_exec_run.
    cbn [fst snd]. split.
    + unfold new_invocations. cbn [invocations]. apply skipn_length_app.
    + apply (exit_code_checked_outcome "push").
  - intros imageName checkoutPath subFolder w.
    apply buildImage_translates.
  - intros imageName checkoutPath subFolder command envs mounts' w.
    apply runContainer_translates.
Qed.

End DockerProperties.

(* ================================================================== *)
(** ** The properties at work on the concrete setting *)

Lemma runContainer_config_mounts_witness :
  Fixture.loadFromFile
    (Fixture.path_join
       [Fixture.path_join
          [Fixture.getAbsolutePath "repo" Fixture.cwd; "app"];
        ".devcontainer/devcontainer.json"])
  = Returned Fixture.devcontainer
  /\ Forall parses
       (map Fixture.substituteValues (config_mounts Fixture.devcontainer))
  /\ Fixture.run_container (runner Fixture.engine) "img" "repo" "app"
       "make test" (Some ["A=1"]) None Fixture.world
     = (Thrown "run failed with 3",
        mkWorld
          [mkInvocation "docker"
             ["run"; "--mount"; "type=bind,src=/work/repo,dst=/workspace";
              "--mount";
              "type=bind,source=/var/run/docker.sock,target=/var/run/docker.sock";
              "--mount"; "src=home-cache,target=/home/vscode/.cache";
              "--workdir"; "/workspace"; "--user"; "root";
              "--cap-add=SYS_PTRACE"; "--env"; "A=1"; "img:latest";
              "bash"; "-c"; "sudo chown -R $(whoami) . && make test"]]
          ["Skipping mount as source does not exist: 'type=bind,source=/missing,target=/mnt'"]).
Proof.
  assert (Hparse : Forall parses
            (map Fixture.substituteValues
                 (config_mounts Fixture.devcontainer))).
  { repeat constructor; eexists; reflexivity. }
  split; [reflexivity | split; [exact Hparse|]].
  exact (proj2 (runContainer_config_mounts
                  Fixture.path_join Fixture.getAbsolutePath Fixture.cwd
                  Fixture.substituteValues Fixture.existsSync
                  Fixture.loadFromFile Fixture.getWorkspaceFolder
                  Fixture.getRemoteUser Fixture.engine
                  "img" "repo" "app" "make test" (Some ["A=1"]) None
                  Fixture.devcontainer Fixture.world)
               eq_refl Hparse).
Defined.

Lemma exit_code_translation_witness :
  Fixture.loadFromFile
    (Fixture.path_join
       [Fixture.path_join ["repo"; "app"]; ".devcontainer/devcontainer.json"])
  = Returned Fixture.devcontainer
  /\ Fixture.getDockerfile Fixture.devcontainer = Some "Dockerfile"
  /\ Fixture.loadFromFile
       (Fixture.path_join
          [Fixture.path_join
             [Fixture.getAbsolutePath "repo" Fixture.cwd; "app"];
           ".devcontainer/devcontainer.json"])
     = Returned Fixture.devcontainer
  /\ Forall parses
       (map Fixture.substituteValues (config_mounts Fixture.devcontainer))
  /\ fst (Fixture.build_image (runner Fixture.engine) "img" "repo" "app"
            Fixture.world)
     = Thrown "build failed with 3"
  /\ fst (Fixture.run_container (runner Fixture.engine) "img" "repo" "app"
            "make test" (Some ["A=1"]) None Fixture.world)
     = Thrown "run failed with 3"
  /\ fst (pushImage (runner Fixture.engine) "img" Fixture.world)
     = Returned tt.
Proof.
  assert (Hparse : Forall parses
            (map Fixture.substituteValues
                 (config_mounts Fixture.devcontainer))).
  { simpl. repeat (apply Forall_cons; [eexists; reflexivity|]).
    apply Forall_nil. }
  assert (Hne : "Dockerfile" <> "") by discriminate.
  destruct (exit_code_translation
              Fixture.path_join Fixture.getAbsolutePath Fixture.cwd
              Fixture.substituteValues Fixture.existsSync
              Fixture.loadFromFile Fixture.getDockerfile
              Fixture.getContext Fixture.getWorkspaceFolder
              Fixture.getRemoteUser Fixture.engine)
    as (Hbuild & Hrun & Hpush & _ & _).
  split; [reflexivity | split; [reflexivity | split; [reflexivity|]]].
  split; [exact Hparse | split; [|split]].
  - destruct (Hbuild "img" "repo" "app" Fixture.devcontainer "Dockerfile"
                Fixture.world eq_refl eq_refl Hne)
      as (args & Hinv & _ & Hnz).
    vm_compute in Hinv. inversion Hinv as [Hargs]. clear Hinv.
    destruct Hnz as (message & Hfst & Hmsg & _).
    { rewrite <- Hargs. discriminate. }
    unfold Fixture.build_image. rewrite Hfst, Hmsg, <- Hargs. reflexivity.
  - destruct (Hrun "img" "repo" "app" "make test" (Some ["A=1"]) None
                Fixture.devcontainer Fixture.world eq_refl Hparse)
      as (args & Hinv & _ & Hnz).
    vm_compute in Hinv. inversion Hinv as [Hargs]. clear Hinv.
    destruct Hnz as (message & Hfst & Hmsg & _).
    { rewrite <- Hargs. discriminate. }
    unfold Fixture.run_container. rewrite Hfst, Hmsg, <- Hargs. reflexivity.
  - destruct (Hpush "img" Fixture.world) as (_ & Hz & _).
    apply Hz. reflexivity.
Defined.

Lemma buildImage_arguments_witness :
  Fixture.loadFromFile
    (Fixture.path_join
       [Fixture.path_join ["repo"; "app"]; ".devcontainer/devcontainer.json"])
  = Returned Fixture.devcontainer
  /\ Fixture.getDockerfile Fixture.devcontainer = Some "Dockerfile"
  /\ "Dockerfile" <> ""
  /\ new_invocations Fixture.world
       (snd (Fixture.build_image (runner Fixture.engine) "img" "repo" "app"
               Fixture.world))
     = [mkInvocation "docker"
          ["buildx"; "build"; "--tag"; "img:latest"; "--cache-from";
           "type=registry,ref=img:latest"; "--cache-to"; "type=inline";
           "--output=type=docker"; "--build-arg"; "VARIANT=18";
           "--build-arg"; "USER=vscode"; "-f";
           "repo/app/.devcontainer/Dockerfile";
           "repo/app/.devcontainer/"]].
Proof.
  assert (Hne : "Dockerfile" <> "") by discriminate.
  split; [reflexivity | split; [reflexivity | split; [exact Hne|]]].
  exact (buildImage_arguments
           Fixture.path_join Fixture.substituteValues Fixture.loadFromFile
           Fixture.getDockerfile Fixture.getContext Fixture.engine
           "img" "repo" "app" Fixture.devcontainer "Dockerfile"
           Fixture.world eq_refl eq_refl Hne).
Defined.

Lemma buildImage_without_dockerfile_witness :
  Fixture.loadFromFile
    (Fixture.path_join
       [Fixture.path_join ["other"; "app"]; ".devcontainer/devcontainer.json"])
  = Returned Fixture.image_only
  /\ truthy (Fixture.getDockerfile Fixture.image_only) = false
  /\ Fixture.build_image (runner Fixture.engine) "img" "other" "app"
       Fixture.world
     = (Thrown dockerfile_not_set, Fixture.world)
  /\ new_invocations Fixture.world
       (snd (Fixture.build_image (runner Fixture.engine) "img" "other" "app"
               Fixture.world))
     = [].
Proof.
  split; [reflexivity | split; [reflexivity|]].
  destruct (buildImage_without_dockerfile
              Fixture.path_join Fixture.substituteValues Fixture.loadFromFile
              Fixture.getDockerfile Fixture.getContext Fixture.engine
              "img" "other" "app" Fixture.image_only eq_refl eq_refl)
    as (Hthrow & _ & Hnone).
  split; [apply Hthrow | apply Hnone].
Defined.

(* ================================================================== *)
(** ** Further properties of [parseMount] *)

Lemma forallb_false_In {A : Type} (p : A -> bool) (l : list A) :
  forallb p l = false -> exists x, In x l /\ p x = false.
Proof.
  induction l as [|x l IH]; simpl; [discriminate|].
  destruct (p x) eqn:Hx.
  - intros H. destruct (IH H) as [y [Hy Hp]]. exists y. auto.
  - intros _. exists x. auto.
Qed.

(** X1. [parseMount] returns a record exactly when the key of every segment
    is one of the eight accepted keys; the only error it throws is
    [Unhandled mount option '<key>'], for the key of a segment of the
    string that is not accepted. *)
Theorem parseMount_outcome (s : string) :
  ((exists m, parseMount s = Returned m)
   <-> Forall (fun o => recognized_key (key_of o) = true) (split "," s))
  /\ (forall e, parseMount s = Thrown e ->
        exists seg,
          In seg (split "," s)
          /\ recognized_key (key_of seg) = false
          /\ e = "Unhandled mount option '" ++ key_of seg ++ "'").
Proof.
  assert (Hof : mount_of (parseMount s)
                = if forallb recognized (split "," s)
                  then Some (fold_left assign (split "," s) empty_mount)
                  else None)
    by apply mount_of_parseMount_loop.
  destruct (forallb recognized (split "," s)) eqn:Hall.
  - assert (HF : Forall (fun o => recognized_key (key_of o) = true)
                        (split "," s)).
    { apply Forall_forall. apply (proj1 (forallb_forall _ _) Hall). }
    split; [split|].
    + intros _. exact HF.
    + intros _. destruct (parseMount s) as [m|e];
        [eauto | simpl in Hof; discriminate Hof].
    + intros e He. rewrite He in Hof. simpl in Hof. discriminate Hof.
  - destruct (forallb_false_In _ _ Hall) as [bad [Hin Hbad]].
    destruct (first_unrecognized _ _ Hin Hbad)
      as (pre & seg & post & Hs & Hpre & Hseg).
    assert (Hfail : parseMount s = Thrown (unhandled (key_of seg))).
    { unfold parseMount. rewrite Hs.
      apply parseMount_loop_unrecognized; assumption. }
    split; [split|].
    + intros [m Hm]. rewrite Hfail in Hm. discriminate.
    + intros HF. exfalso.
      assert (Hb : recognized bad = true)
        by apply (proj1 (Forall_forall _ _) HF bad Hin).
      congruence.
    + intros e He. exists seg. split; [|split].
      * rewrite Hs. apply in_or_app. right. left. reflexivity.
      * exact Hseg.
      * rewrite Hfail in He. inversion He. reflexivity.
Qed.

Lemma parseMount_outcome_witness :
  parseMount "type=bind,Source=/a" = Thrown "Unhandled mount option 'Source'"
  /\ exists seg,
       In seg (split "," "type=bind,Source=/a")
       /\ recognized_key (key_of seg) = false
       /\ "Unhandled mount option 'Source'"
          = "Unhandled mount option '" ++ key_of seg ++ "'".
Proof.
  split; [reflexivity|].
  apply (proj2 (parseMount_outcome "type=bind,Source=/a")). reflexivity.
Defined.

(** *** Empty segments *)

Lemma split_sep_tail_empty (c : ascii) (a b : string) (rest : list string) :
  split c b = EmptyString :: rest ->
  In EmptyString (tl (split c (a ++ String c b))).
Proof.
  intros Hb. induction a as [|d a IH]; simpl.
  - rewrite Ascii.eqb_refl. simpl. rewrite Hb. left. reflexivity.
  - destruct (Ascii.eqb d c).
    + simpl. destruct (split c (a ++ String c b)) as [|q qs];
        [destruct IH | right; exact IH].
    + destruct (split c (a ++ String c b)) as [|q qs];
        [destruct IH | exact IH].
Qed.

Lemma In_tl {A : Type} (x : A) (l : list A) : In x (tl l) -> In x l.
Proof. destruct l; simpl; auto. Qed.

Lemma parseMount_fails_on_empty_segment (s : string) :
  In "" (split "," s) -> exists e, parseMount s = Thrown e.
Proof.
  intros Hin.
  destruct (first_unrecognized _ _ Hin eq_refl)
    as (pre & seg & post & Hs & Hpre & Hseg).
  exists (unhandled (key_of seg)). unfold parseMount. rewrite Hs.
  apply parseMount_loop_unrecognized; assumption.
Qed.

(** X2. A mount string with an empty segment does not parse. This is so for
    a string that ends with a comma, for one with two commas in a row, and
    for one that starts with a comma, where the error names the empty
    key. *)
Theorem parseMount_empty_segment :
  (forall s, In "" (split "," s) -> exists e, parseMount s = Thrown e)
  /\ (forall s, exists e, parseMount (s ++ ",") = Thrown e)
  /\ (forall a b, exists e, parseMount (a ++ ",," ++ b) = Thrown e)
  /\ (forall s, parseMount ("," ++ s) = Thrown "Unhandled mount option ''").
Proof.
  split; [exact parseMount_fails_on_empty_segment | split; [|split]].
  - intros s. apply parseMount_fails_on_empty_segment.
    apply In_tl. apply (split_sep_tail_empty "," s "" []). reflexivity.
  - intros a b. apply parseMount_fails_on_empty_segment.
    apply In_tl.
    apply (split_sep_tail_empty "," a (String "," b) (split "," b)).
    reflexivity.
  - intros s. unfold parseMount.
    change (split "," ("," ++ s)) with ("" :: split "," s).
    reflexivity.
Qed.

Lemma parseMount_empty_segment_witness :
  In "" (split "," "type=bind,,target=/b")
  /\ exists e, parseMount "type=bind,,target=/b" = Thrown e.
Proof.
  assert (Hin : In "" (split "," "type=bind,,target=/b")).
  { right. left. reflexivity. }
  split; [exact Hin|].
  apply (proj1 parseMount_empty_segment). exact Hin.
Defined.

(** *** What follows a second ["="] *)

Lemma split_pieces_other (c d : ascii) (s p : string) :
  has_char d s = false -> In p (split c s) -> has_char d p = false.
Proof.
  revert p. induction s as [|a s IH]; simpl; intros p Hd Hin.
  - destruct Hin as [<-|[]]. reflexivity.
  - apply orb_false_iff in Hd as [Ha Hs].
    destruct (Ascii.eqb a c).
    + destruct Hin as [<-|Hin]; [reflexivity | auto].
    + destruct (split c s) as [|q qs] eqn:Hq.
      * destruct (split_nonempty _ _ Hq).
      * destruct Hin as [<-|Hin].
        -- simpl. rewrite Ha. apply IH; [exact Hs | left; reflexivity].
        -- apply IH; [exact Hs | right; exact Hin].
Qed.

Lemma split_truncate_segment (o : string) :
  split "=" (truncate_segment o) = firstn 2 (split "=" o).
Proof.
  unfold truncate_segment.
  pose proof (split_pieces_no_sep "=" o) as Hp.
  destruct (split "=" o) as [|a [|b rest]] eqn:Ho.
  - destruct (split_nonempty _ _ Ho).
  - simpl. apply split_no_sep. apply Hp. left. reflexivity.
  - apply split_join; [discriminate|].
    repeat constructor; apply Hp; simpl; auto.
Qed.

Lemma index_firstn_2 (l : list string) :
  index (firstn 2 l) 0 = index l 0 /\ index (firstn 2 l) 1 = index l 1.
Proof. destruct l as [|a [|b rest]]; split; reflexivity. Qed.

Lemma parseMount_option_truncate (o : string) (m : DockerMount) :
  parseMount_option (truncate_segment o) m = parseMount_option o m.
Proof.
  unfold parseMount_option. rewrite split_truncate_segment.
  destruct (index_firstn_2 (split "=" o)) as [-> ->]. reflexivity.
Qed.

Lemma truncate_segment_no_comma (o : string) :
  has_char "," o = false -> has_char "," (truncate_segment o) = false.
Proof.
  intros Ho. unfold truncate_segment.
  pose proof (fun p => split_pieces_other "=" "," o p Ho) as Hp.
  destruct (split "=" o) as [|a [|b rest]].
  - reflexivity.
  - simpl. apply Hp. left. reflexivity.
  - change (join "=" (firstn 2 (a :: b :: rest))) with (a ++ String "=" b).
    rewrite has_char_app. simpl.
    rewrite (Hp a), (Hp b); simpl; auto.
Qed.

Lemma parseMount_loop_truncate (os : list string) (m : DockerMount) :
  parseMount_loop (map truncate_segment os) m = parseMount_loop os m.
Proof.
  revert m. induction os as [|o os IH]; intros m; simpl; [reflexivity|].
  rewrite parseMount_option_truncate.
  destruct (parseMount_option o m); [apply IH | reflexivity].
Qed.

(** X3. Only the first two tokens of a segment count: cutting every segment
    of a mount string after its second token changes nothing to what
    [parseMount] returns or throws. So [key=value=more] is read as
    [key=value]: a value is cut at its first ["="]. *)
Theorem parseMount_truncate :
  (forall s, parseMount (truncate_mount_string s) = parseMount s)
  /\ (forall k v more,
        has_char "=" k = false -> has_char "=" v = false ->
        truncate_segment (k ++ "=" ++ v ++ "=" ++ more) = k ++ "=" ++ v).
Proof.
  split.
  - intros s. unfold parseMount at 1. unfold truncate_mount_string.
    rewrite split_join.
    + apply parseMount_loop_truncate.
    + destruct (split "," s) eqn:Hs; [destruct (split_nonempty _ _ Hs)|].
      discriminate.
    + apply Forall_forall. intros p Hp. apply in_map_iff in Hp.
      destruct Hp as [o [<- Ho]]. apply truncate_segment_no_comma.
      apply (split_pieces_no_sep "," s). exact Ho.
  - intros k v more Hk Hv. unfold truncate_segment.
    change (k ++ "=" ++ v ++ "=" ++ more)
      with (k ++ String "=" (v ++ String "=" more)).
    rewrite (split_app_sep "=" k _ Hk), (split_app_sep "=" v _ Hv).
    reflexivity.
Qed.

Lemma parseMount_truncate_witness :
  has_char "=" "source" = false
  /\ has_char "=" "/a" = false
  /\ truncate_mount_string "type=bind,source=/a=b,target=/c"
     = "type=bind,source=/a,target=/c"
  /\ parseMount "type=bind,source=/a=b,target=/c"
     = parseMount "type=bind,source=/a,target=/c".
Proof.
  split; [reflexivity | split; [reflexivity | split]].
  - unfold truncate_mount_string.
    change (split "," "type=bind,source=/a=b,target=/c")
      with ["type=bind"; "source" ++ "=" ++ "/a" ++ "=" ++ "b"; "target=/c"].
    cbn [map].
    rewrite (proj2 parseMount_truncate "source" "/a" "b" eq_refl eq_refl).
    reflexivity.
  - symmetry.
    exact (proj1 parseMount_truncate "type=bind,source=/a=b,target=/c").
Defined.

(** *** Segments without ["="] *)

Lemma before_no_sep (c : ascii) (s : string) :
  has_char c s = false -> before c s = s.
Proof.
  induction s as [|d s IH]; simpl; [reflexivity|].
  intros H. apply orb_false_iff in H as [Hd Hs]. rewrite Hd, (IH Hs).
  reflexivity.
Qed.

Lemma fold_assign_other_fields (f : MountField) (os : list string)
      (m : DockerMount) :
  Forall (fun o => field_of_key (key_of o) <> Some f) os ->
  get_field f (fold_left assign os m) = get_field f m.
Proof.
  intros H. revert m. induction H as [|o os Ho _ IH]; intros m; simpl.
  - reflexivity.
  - rewrite IH. unfold assign.
    destruct (field_of_key (key_of o)) as [g|]; [|reflexivity].
    rewrite get_set_field.
    destruct (MountField_eqb f g) eqn:E; [|reflexivity].
    apply MountField_eqb_eq in E. congruence.
Qed.

(** X4. A value-bearing key written without ["="] sets its field to
    [undefined], not to the empty string: when such a segment is the last
    one that assigns the field and the string parses, the field of the
    record returned is [undefined]. *)
Theorem parseMount_bare_key
        (s : string) (pre : list string) (seg : string) (post : list string)
        (f : MountField) :
  split "," s = (pre ++ seg :: post)%list ->
  Forall (fun o => recognized_key (key_of o) = true) (pre ++ seg :: post) ->
  has_char "=" seg = false ->
  field_of_key seg = Some f ->
  Forall (fun o => field_of_key (key_of o) <> Some f) post ->
  exists m, parseMount s = Returned m /\ get_field f m = JsUndefined.
Proof.
  intros Hs Hall Hno Hf Hpost.
  exists (fold_left assign (split "," s) empty_mount). split.
  - apply parseMount_loop_recognized. rewrite Hs.
    apply forallb_forall. apply (proj1 (Forall_forall _ _) Hall).
  - rewrite Hs, fold_left_app. cbn [fold_left].
    rewrite (fold_assign_other_fields _ _ _ Hpost).
    unfold assign, key_of, value_of.
    rewrite (before_no_sep _ _ Hno), Hf, (split_no_sep _ _ Hno).
    rewrite get_set_field.
    destruct f; reflexivity.
Qed.

Lemma parseMount_bare_key_witness :
  parseMount "type=bind,source,target=/b"
  = Returned (mkDockerMount (JsString "bind") JsUndefined (JsString "/b"))
  /\ exists m,
       parseMount "type=bind,source,target=/b" = Returned m
       /\ get_field FSource m = JsUndefined.
Proof.
  split; [reflexivity|].
  apply (parseMount_bare_key "type=bind,source,target=/b"
           ["type=bind"] "source" ["target=/b"] FSource eq_refl).
  - repeat constructor.
  - reflexivity.
  - reflexivity.
  - repeat constructor. discriminate.
Defined.

Lemma split_two_pieces (c : ascii) (s : string) :
  has_char c s = true -> exists a b rest, split c s = a :: b :: rest.
Proof.
  induction s as [|d s IH]; simpl; [discriminate|].
  destruct (Ascii.eqb d c); simpl.
  - intros _. destruct (split c s) as [|q qs] eqn:Hq.
    + destruct (split_nonempty _ _ Hq).
    + exists EmptyString, q, qs. reflexivity.
  - intros H. destruct (IH H) as (a & b & rest & ->).
    exists (String d a), b, rest. reflexivity.
Qed.

Lemma value_of_with_sep (o : string) :
  has_char "=" o = true -> is_string (value_of o) = true.
Proof.
  intros H. unfold value_of.
  destruct (split_two_pieces _ _ H) as (a & b & rest & ->). reflexivity.
Qed.

Lemma fold_assign_strings (os : list string) (m : DockerMount) :
  Forall (fun o => has_char "=" o = true) os ->
  (forall f, is_string (get_field f m) = true) ->
  forall f, is_string (get_field f (fold_left assign os m)) = true.
Proof.
  intros H. revert m. induction H as [|o os Ho _ IH]; intros m Hm; simpl.
  - exact Hm.
  - apply IH. intros f. unfold assign.
    destruct (field_of_key (key_of o)) as [g|]; [|apply Hm].
    rewrite get_set_field.
    destruct (MountField_eqb f g); [apply value_of_with_sep; exact Ho | apply Hm].
Qed.

(** X5. When every segment of a mount string contains ["="], the record
    [parseMount] returns has a string in each of its three fields: no field
    is [undefined]. *)
Theorem parseMount_fields_are_strings (s : string) (m : DockerMount) :
  Forall (fun o => has_char "=" o = true) (split "," s) ->
  parseMount s = Returned m ->
  is_string (type m) = true
  /\ is_string (source m) = true
  /\ is_string (target m) = true.
Proof.
  intros Hsep Hm.
  assert (Hof : mount_of (parseMount s)
                = if forallb recognized (split "," s)
                  then Some (fold_left assign (split "," s) empty_mount)
                  else None)
    by apply mount_of_parseMount_loop.
  rewrite Hm in Hof. simpl in Hof.
  destruct (forallb recognized (split "," s)); [|discriminate Hof].
  inversion Hof as [E]. clear Hof.
  assert (H : forall f,
             is_string
               (get_field f (fold_left assign (split "," s) empty_mount))
             = true).
  { apply fold_assign_strings; [exact Hsep|]. intros f. destruct f; reflexivity. }
  repeat split.
  - apply (H FType).
  - apply (H FSource).
  - apply (H FTarget).
Qed.

Lemma parseMount_fields_are_strings_witness :
  Forall (fun o => has_char "=" o = true)
         (split "," "type=volume,src=cache,dst=/c=d,ro=1")
  /\ parseMount "type=volume,src=cache,dst=/c=d,ro=1"
     = Returned (mkDockerMount (JsString "volume") (JsString "cache")
                   (JsString "/c"))
  /\ is_string (JsString "volume") = true
  /\ is_string (JsString "cache") = true
  /\ is_string (JsString "/c") = true.
Proof.
  assert (Hsep : Forall (fun o => has_char "=" o = true)
                        (split "," "type=volume,src=cache,dst=/c=d,ro=1"))
    by (simpl; repeat (apply Forall_cons; [reflexivity|]); apply Forall_nil).
  split; [exact Hsep | split; [reflexivity|]].
  exact (parseMount_fields_are_strings
           "type=volume,src=cache,dst=/c=d,ro=1"
           (mkDockerMount (JsString "volume") (JsString "cache")
              (JsString "/c"))
           Hsep eq_refl).
Defined.

(** *** Aliases of a key *)

Lemma parseMount_loop_replace
      (pre : list string) (a b : string) (post : list string)
      (m : DockerMount) :
  (forall m', parseMount_option a m' = parseMount_option b m') ->
  parseMount_loop (pre ++ a :: post) m = parseMount_loop (pre ++ b :: post) m.
Proof.
  intros H. revert m. induction pre as [|o pre IH]; intros m; simpl.
  - rewrite H. reflexivity.
  - destruct (parseMount_option o m); [apply IH | reflexivity].
Qed.

Lemma parseMount_option_key_value (k v : string) (f : MountField)
      (m : DockerMount) :
  field_of_key k = Some f ->
  parseMount_option (k ++ "=" ++ v) m
  = Returned (set_field f (index (split "=" v) 0) m).
Proof.
  intros Hk. rewrite parseMount_option_cases. unfold key_of, value_of.
  change (k ++ "=" ++ v) with (k ++ String "=" v).
  destruct (field_key_plain _ _ Hk) as [Heq _].
  rewrite (before_app_sep _ _ _ Heq), Hk, (split_app_sep _ _ _ Heq).
  reflexivity.
Qed.

(** X6. The aliases of a key are interchangeable: replacing, in one segment
    [key=value] of a mount string, the key by another key of the same field
    ([src] and [source]; [dst], [destination] and [target]) changes nothing
    to what [parseMount] returns or throws. *)
Theorem parseMount_key_alias
        (pre post : list string) (k k' v : string) (f : MountField) :
  field_of_key k = Some f ->
  field_of_key k' = Some f ->
  has_char "," v = false ->
  Forall (fun o => has_char "," o = false) (pre ++ post) ->
  parseMount (join "," (pre ++ segment (k, v) :: post))
  = parseMount (join "," (pre ++ segment (k', v) :: post)).
Proof.
  intros Hk Hk' Hv Hrest.
  assert (Hsplit : forall key, field_of_key key = Some f ->
            split "," (join "," (pre ++ segment (key, v) :: post))
            = (pre ++ segment (key, v) :: post)%list).
  { intros key Hkey. apply split_join.
    - destruct pre; discriminate.
    - apply Forall_app in Hrest as [Hpre Hpost].
      apply Forall_app. split; [exact Hpre|].
      constructor; [|exact Hpost].
      apply (segment_no_comma _ _ _ Hkey Hv). }
  unfold parseMount. rewrite (Hsplit k Hk), (Hsplit k' Hk').
  apply parseMount_loop_replace. intros m'. unfold segment. cbn [fst snd].
  rewrite (parseMount_option_key_value _ _ _ _ Hk).
  rewrite (parseMount_option_key_value _ _ _ _ Hk'). reflexivity.
Qed.

Lemma parseMount_key_alias_witness :
  parseMount "type=volume,src=cache,destination=/c"
  = parseMount "type=volume,src=cache,dst=/c"
  /\ parseMount "type=volume,src=cache,destination=/c"
     = Returned (mkDockerMount (JsString "volume") (JsString "cache")
                   (JsString "/c")).
Proof.
  split; [|reflexivity].
  apply (parseMount_key_alias ["type=volume"; "src=cache"] []
           "destination" "dst" "/c" FTarget eq_refl eq_refl eq_refl).
  repeat constructor.
Defined.

(* ================================================================== *)
(** ** Further properties of the orchestration functions *)

Lemma at_most_one_docker_none (w w' : World) :
  invocations w' = invocations w -> at_most_one_docker w w'.
Proof.
  intros H. left. unfold new_invocations. rewrite H. apply skipn_length.
Qed.

Lemma at_most_one_docker_checked_exec
      (engine : string -> list string -> Z) (failure : string)
      (args : list string) (w w1 : World) :
  invocations w1 = invocations w ->
  at_most_one_docker w (snd (checked_exec engine failure args w1)).
Proof.
  intros H. right. exists args. rewrite checked_exec_run.
  unfold new_invocations. cbn [snd invocations]. rewrite H.
  apply skipn_length_app.
Qed.

Section DockerFurther.

Variable path_join : list string -> string.
Variable getAbsolutePath : string -> string -> string.
Variable cwd : string.
Variable substituteValues : string -> string.
Variable existsSync : JsValue -> bool.
Variable loadFromFile : string -> Outcome DevContainerConfig.
Variable getDockerfile : DevContainerConfig -> option string.
Variable getContext : DevContainerConfig -> option string.
Variable getWorkspaceFolder : DevContainerConfig -> string -> string.
Variable getRemoteUser : DevContainerConfig -> string.
Variable engine : string -> list string -> Z.

Local Abbreviation buildImage' :=
  (buildImage path_join substituteValues loadFromFile getDockerfile
     getContext).
Local Abbreviation runContainer' :=
  (runContainer path_join getAbsolutePath cwd substituteValues existsSync
     loadFromFile getWorkspaceFolder getRemoteUser).
Local Abbreviation devcontainer_json folder :=
  (path_join [folder; ".devcontainer/devcontainer.json"]).

Lemma runContainer_mounts_unparsable
      (pre : list string) (bad : string) (post : list string) (e : string) :
  Forall parses pre ->
  parseMount bad = Thrown e ->
  forall (args : list string) (w : World),
    runContainer_mounts existsSync (pre ++ bad :: post) args w
    = (Thrown e,
       mkWorld (invocations w)
         (console w
          ++ map skipping_message
               (filter (missing_bind_source existsSync) pre))).
Proof.
  intros Hpre Hbad. induction Hpre as [|m ms Hm _ IH]; intros args w.
  - cbn [app runContainer_mounts filter map]. unfold bind at 1.
    unfold runContainer_mount, bind, lift. rewrite Hbad.
    rewrite app_nil_r. destruct w; reflexivity.
  - cbn [app runContainer_mounts filter]. unfold bind at 1.
    rewrite (runContainer_mount_parsed existsSync m args w Hm).
    destruct (missing_bind_source existsSync m).
    + rewrite IH. cbn [invocations console map].
      rewrite <- app_assoc. reflexivity.
    + rewrite IH. reflexivity.
Qed.

(** X7. A mount string of the configuration that does not parse makes
    [runContainer] throw the parser's error before any process is started,
    whatever the process runner is; the mounts before it were gone through,
    and the lines printed for skipped ones stay printed. *)
Theorem runContainer_unparsable_mount
        (exec : ExecFunction)
        (imageName checkoutPath subFolder command : string)
        (envs mounts' : option (list string))
        (cfg : DevContainerConfig) (w : World)
        (pre : list string) (bad : string) (post : list string)
        (e : string) :
  loadFromFile
    (devcontainer_json
       (path_join [getAbsolutePath checkoutPath cwd; subFolder]))
  = Returned cfg ->
  map substituteValues (config_mounts cfg) = (pre ++ bad :: post)%list ->
  Forall parses pre ->
  parseMount bad = Thrown e ->
  runContainer' exec imageName checkoutPath subFolder command envs mounts' w
  = (Thrown e,
     mkWorld (invocations w)
       (console w
        ++ map skipping_message
             (filter (missing_bind_source existsSync) pre))).
Proof.
  intros Hload Hms Hpre Hbad.
  unfold runContainer. unfold bind at 1. unfold lift. rewrite Hload.
  unfold bind at 1. unfold config_mounts in Hms.
  destruct (mounts cfg) as [ms|].
  - rewrite Hms.
    rewrite (runContainer_mounts_unparsable pre bad post e Hpre Hbad).
    reflexivity.
  - destruct pre; discriminate Hms.
Qed.

(** X8. When the configuration cannot be loaded, [buildImage] and
    [runContainer] throw the loader's error as it is, whatever the process
    runner is, and leave the world as it was: nothing is started, nothing
    printed. *)
Theorem config_load_failure
        (exec : ExecFunction)
        (imageName checkoutPath subFolder command : string)
        (envs mounts' : option (list string)) (w : World) (e : string) :
  (loadFromFile (devcontainer_json (path_join [checkoutPath; subFolder]))
   = Thrown e ->
   buildImage' exec imageName checkoutPath subFolder w = (Thrown e, w))
  /\ (loadFromFile
        (devcontainer_json
           (path_join [getAbsolutePath checkoutPath cwd; subFolder]))
      = Thrown e ->
      runContainer' exec imageName checkoutPath subFolder command envs
        mounts' w
      = (Thrown e, w)).
Proof.
  split; intros Hload.
  - unfold buildImage, bind, lift. rewrite Hload. reflexivity.
  - unfold runContainer. unfold bind at 1. unfold lift. rewrite Hload.
    reflexivity.
Qed.

(** X9. Whatever the configuration and the inputs, a call of
    [isDockerBuildXInstalled], [buildImage], [runContainer] or [pushImage]
    starts at most one process, and that process is [docker]. *)
Theorem at_most_one_docker_process :
  (forall w,
      at_most_one_docker w (snd (isDockerBuildXInstalled (runner engine) w)))
  /\ (forall imageName checkoutPath subFolder w,
         at_most_one_docker w
           (snd (buildImage' (runner engine) imageName checkoutPath
                   subFolder w)))
  /\ (forall imageName checkoutPath subFolder command envs mounts' w,
         at_most_one_docker w
           (snd (runContainer' (runner engine) imageName checkoutPath
                   subFolder command envs mounts' w)))
  /\ (forall imageName w,
         at_most_one_docker w (snd (pushImage (runner engine) imageName w))).
Proof.
  split; [|split; [|split]].
  - intros w. right. exists ["buildx"; "--help"].
    unfold new_invocations. simpl. apply skipn_length_app.
  - intros imageName checkoutPath subFolder w.
    destruct (loadFromFile
                (devcontainer_json (path_join [checkoutPath; subFolder])))
      as [cfg|e] eqn:Hload.
    + destruct (getDockerfile cfg) as [d|] eqn:Hd.
      * destruct (String.eqb_spec d "") as [E|Hne].
        -- unfold buildImage, bind, lift. rewrite Hload, Hd. subst d.
           apply at_most_one_docker_none. reflexivity.
        -- rewrite (buildImage_with_dockerfile
                      path_join substituteValues loadFromFile getDockerfile
                      getContext engine imageName _ _ _ _ w Hload Hd Hne).
           apply at_most_one_docker_checked_exec. reflexivity.
      * unfold buildImage, bind, lift. rewrite Hload, Hd.
        apply at_most_one_docker_none. reflexivity.
    + unfold buildImage, bind, lift. rewrite Hload.
      apply at_most_one_docker_none. reflexivity.
  - intros imageName checkoutPath subFolder command envs mounts' w.
    unfold runContainer. unfold bind at 1. unfold lift.
    destruct (loadFromFile _) as [cfg|e];
      [|apply at_most_one_docker_none; reflexivity].
    unfold bind at 1.
    match goal with
    | |- context [match ?loop w with _ => _ end] =>
        assert (Hinv : invocations (snd (loop w)) = invocations w);
        [| destruct (loop w) as [[args|e] w1] ]
    end.
    + destruct (mounts cfg) as [ms|];
        [apply runContainer_mounts_invocations | reflexivity].
    + change (bind (runner engine "docker" ?a) ?k ?w1)
        with (checked_exec engine "run failed with " a w1).
      apply at_most_one_docker_checked_exec. exact Hinv.
    + apply at_most_one_docker_none. exact Hinv.
  - intros imageName w. rewrite pushImage_run.
    apply at_most_one_docker_checked_exec. reflexivity.
Qed.

End DockerFurther.

Section FilesystemIndependence.

Variable path_join : list string -> string.
Variable getAbsolutePath : string -> string -> string.
Variable cwd : string.
Variable substituteValues : string -> string.
Variable loadFromFile : string -> Outcome DevContainerConfig.
Variable getWorkspaceFolder : DevContainerConfig -> string -> string.
Variable getRemoteUser : DevContainerConfig -> string.

(** Two states of the filesystem. *)
Variables existsSync1 existsSync2 : JsValue -> bool.

Lemma runContainer_mounts_not_bind (ms : list string) :
  Forall not_bind ms ->
  forall (args : list string) (w : World),
    runContainer_mounts existsSync1 ms args w
    = runContainer_mounts existsSync2 ms args w.
Proof.
  induction 1 as [|m ms Hm _ IH]; intros args w; [reflexivity|].
  cbn [runContainer_mounts]. unfold bind.
  assert (E : runContainer_mount existsSync1 m args w
              = runContainer_mount existsSync2 m args w).
  { unfold runContainer_mount, bind, lift.
    destruct (parseMount m) as [mount|e] eqn:Hp; [|reflexivity].
    rewrite (Hm mount Hp). reflexivity. }
  rewrite E.
  destruct (runContainer_mount existsSync2 m args w) as [[args'|e] w1];
    [apply IH | reflexivity].
Qed.

(** X10. [runContainer] looks at the filesystem for [bind] mounts only: when
    no mount string of the configuration parses to a mount of type [bind],
    the call does the same whatever exists on the filesystem. *)
Theorem runContainer_non_bind_no_filesystem
        (exec : ExecFunction)
        (imageName checkoutPath subFolder command : string)
        (envs mounts' : option (list string))
        (cfg : DevContainerConfig) (w : World) :
  loadFromFile
    (path_join [path_join [getAbsolutePath checkoutPath cwd; subFolder];
                ".devcontainer/devcontainer.json"])
  = Returned cfg ->
  Forall not_bind (map substituteValues (config_mounts cfg)) ->
  runContainer path_join getAbsolutePath cwd substituteValues existsSync1
    loadFromFile getWorkspaceFolder getRemoteUser
    exec imageName checkoutPath subFolder command envs mounts' w
  = runContainer path_join getAbsolutePath cwd substituteValues existsSync2
      loadFromFile getWorkspaceFolder getRemoteUser
      exec imageName checkoutPath subFolder command envs mounts' w.
Proof.
  intros Hload Hms. unfold runContainer, bind, lift.
  rewrite Hload. unfold config_mounts in Hms.
  destruct (mounts cfg) as [ms|]; [|reflexivity].
  rewrite (runContainer_mounts_not_bind _ Hms). reflexivity.
Qed.

End FilesystemIndependence.

(* ================================================================== *)
(** ** The further properties at work *)

Lemma runContainer_unparsable_mount_witness :
  map Fixture.substituteValues (config_mounts Faulty.unknown_option)
  = (["type=bind,source=/missing,target=/mnt"]
     ++ "type=bind,source=/src,target=/dst,consistency=cached"
     :: ["src=home-cache,target=/home/vscode/.cache"])%list
  /\ Forall parses ["type=bind,source=/missing,target=/mnt"]
  /\ parseMount "type=bind,source=/src,target=/dst,consistency=cached"
     = Thrown "Unhandled mount option 'consistency'"
  /\ runContainer Fixture.path_join Fixture.getAbsolutePath Fixture.cwd
       Fixture.substituteValues Fixture.existsSync Faulty.load_unknown_option
       Fixture.getWorkspaceFolder Fixture.getRemoteUser
       (runner Fixture.engine) "img" "repo" "app" "make test" None None
       Fixture.world
     = (Thrown "Unhandled mount option 'consistency'",
        mkWorld []
          ["Skipping mount as source does not exist: 'type=bind,source=/missing,target=/mnt'"]).
Proof.
  assert (Hpre : Forall parses ["type=bind,source=/missing,target=/mnt"]).
  { apply Forall_cons; [eexists; reflexivity | apply Forall_nil]. }
  split; [reflexivity | split; [exact Hpre | split; [reflexivity|]]].
  exact (runContainer_unparsable_mount
           Fixture.path_join Fixture.getAbsolutePath Fixture.cwd
           Fixture.substituteValues Fixture.existsSync
           Faulty.load_unknown_option Fixture.getWorkspaceFolder
           Fixture.getRemoteUser (runner Fixture.engine)
           "img" "repo" "app" "make test" None None
           Faulty.unknown_option Fixture.world
           ["type=bind,source=/missing,target=/mnt"]
           "type=bind,source=/src,target=/dst,consistency=cached"
           ["src=home-cache,target=/home/vscode/.cache"]
           "Unhandled mount option 'consistency'"
           eq_refl eq_refl Hpre eq_refl).
Defined.

Lemma config_load_failure_witness :
  buildImage Fixture.path_join Fixture.substituteValues Faulty.unreadable
    Fixture.getDockerfile Fixture.getContext
    (runner Fixture.engine) "img" "repo" "app" Fixture.world
  = (Thrown "ENOENT: no such file or directory", Fixture.world)
  /\ runContainer Fixture.path_join Fixture.getAbsolutePath Fixture.cwd
       Fixture.substituteValues Fixture.existsSync Faulty.unreadable
       Fixture.getWorkspaceFolder Fixture.getRemoteUser
       (runner Fixture.engine) "img" "repo" "app" "make test" None None
       Fixture.world
     = (Thrown "ENOENT: no such file or directory", Fixture.world).
Proof.
  pose proof (config_load_failure
                Fixture.path_join Fixture.getAbsolutePath Fixture.cwd
                Fixture.substituteValues Fixture.existsSync
                Faulty.unreadable Fixture.getDockerfile Fixture.getContext
                Fixture.getWorkspaceFolder Fixture.getRemoteUser
                (runner Fixture.engine) "img" "repo" "app" "make test"
                None None Fixture.world
                "ENOENT: no such file or directory") as [Hb Hr].
  split; [apply Hb | apply Hr]; reflexivity.
Defined.

Lemma runContainer_non_bind_no_filesystem_witness :
  Forall not_bind
    (map Fixture.substituteValues (config_mounts Faulty.volumes))
  /\ runContainer Fixture.path_join Fixture.getAbsolutePath Fixture.cwd
       Fixture.substituteValues Faulty.everything_exists Faulty.load_volumes
       Fixture.getWorkspaceFolder Fixture.getRemoteUser
       (runner Fixture.engine) "img" "repo" "app" "make test" None None
       Fixture.world
     = runContainer Fixture.path_join Fixture.getAbsolutePath Fixture.cwd
         Fixture.substituteValues Faulty.nothing_exists Faulty.load_volumes
         Fixture.getWorkspaceFolder Fixture.getRemoteUser
         (runner Fixture.engine) "img" "repo" "app" "make test" None None
         Fixture.world.
Proof.
  assert (H : Forall not_bind
                (map Fixture.substituteValues (config_mounts Faulty.volumes))).
  { simpl. repeat (apply Forall_cons;
                   [intros mount Hm; inversion Hm; reflexivity|]).
    apply Forall_nil. }
  split; [exact H|].
  exact (runContainer_non_bind_no_filesystem
           Fixture.path_join Fixture.getAbsolutePath Fixture.cwd
           Fixture.substituteValues Faulty.load_volumes
           Fixture.getWorkspaceFolder Fixture.getRemoteUser
           Faulty.everything_exists Faulty.nothing_exists
           (runner Fixture.engine) "img" "repo" "app" "make test" None None
           Faulty.volumes Fixture.world eq_refl H).
Defined.

(* ================================================================== *)
(** ** A process runner that fails *)

Lemma bind_thrown {A B : Type} (c : M A) (k : A -> M B) (w : World)
      (e : string) :
  fst (c w) = Thrown e -> fst (bind c k w) = Thrown e.
Proof.
  unfold bind. destruct (c w) as [[a|e'] w']; simpl; intros H;
    [discriminate H | inversion H; reflexivity].
Qed.

Section RunnerFailure.

Variable path_join : list string -> string.
Variable getAbsolutePath : string -> string -> string.
Variable cwd : string.
Variable substituteValues : string -> string.
Variable existsSync : JsValue -> bool.
Variable loadFromFile : string -> Outcome DevContainerConfig.
Variable getDockerfile : DevContainerConfig -> option string.
Variable getContext : DevContainerConfig -> option string.
Variable getWorkspaceFolder : DevContainerConfig -> string -> string.
Variable getRemoteUser : DevContainerConfig -> string.

(** X11. When the process runner itself throws, whatever it is asked to
    run, each function that reaches it throws the same error:
    [isDockerBuildXInstalled] does not answer [false], and [buildImage],
    [runContainer] and [pushImage] do not report an exit code. *)
Theorem runner_failure_surfaces (exec : ExecFunction) (e : string) :
  (forall cmd args w, fst (exec cmd args w) = Thrown e) ->
  (forall w, fst (isDockerBuildXInstalled exec w) = Thrown e)
  /\ (forall imageName w, fst (pushImage exec imageName w) = Thrown e)
  /\ (forall imageName checkoutPath subFolder cfg d w,
         loadFromFile
           (path_join [path_join [checkoutPath; subFolder];
                       ".devcontainer/devcontainer.json"])
         = Returned cfg ->
         getDockerfile cfg = Some d ->
         d <> "" ->
         fst (buildImage path_join substituteValues loadFromFile
                getDockerfile getContext
                exec imageName checkoutPath subFolder w)
         = Thrown e)
  /\ (forall imageName checkoutPath subFolder command envs mounts' cfg w,
         loadFromFile
           (path_join
              [path_join [getAbsolutePath checkoutPath cwd; subFolder];
               ".devcontainer/devcontainer.json"])
         = Returned cfg ->
         Forall parses (map substituteValues (config_mounts cfg)) ->
         fst (runContainer path_join getAbsolutePath cwd substituteValues
                existsSync loadFromFile getWorkspaceFolder getRemoteUser
                exec imageName checkoutPath subFolder command envs
                mounts' w)
         = Thrown e).
Proof.
  intros Hexec. split; [|split; [|split]].
  - intros w. apply bind_thrown. apply Hexec.
  - intros imageName w. apply bind_thrown. apply Hexec.
  - intros imageName checkoutPath subFolder cfg d w Hload Hd Hne.
    unfold buildImage. unfold bind at 1. unfold lift. rewrite Hload, Hd.
    destruct (String.eqb_spec d "") as [E|_]; [contradiction|].
    apply bind_thrown. apply Hexec.
  - intros imageName checkoutPath subFolder command envs mounts' cfg w
           Hload Hparse.
    unfold runContainer. unfold bind at 1. unfold lift. rewrite Hload.
    unfold bind at 1. unfold config_mounts in Hparse.
    destruct (mounts cfg) as [ms|].
    + rewrite (runContainer_mounts_parsed existsSync _ Hparse).
      apply bind_thrown. apply Hexec.
    + unfold ret at 1. apply bind_thrown. apply Hexec.
Qed.

End RunnerFailure.

Lemma runner_failure_surfaces_witness :
  (forall cmd args w,
      fst (Faulty.docker_missing cmd args w) = Thrown "spawn docker ENOENT")
  /\ fst (isDockerBuildXInstalled Faulty.docker_missing Fixture.world)
     = Thrown "spawn docker ENOENT"
  /\ fst (Fixture.build_image Faulty.docker_missing "img" "repo" "app"
            Fixture.world)
     = Thrown "spawn docker ENOENT".
Proof.
  assert (H : forall cmd args w,
             fst (Faulty.docker_missing cmd args w)
             = Thrown "spawn docker ENOENT")
    by reflexivity.
  destruct (runner_failure_surfaces
              Fixture.path_join Fixture.getAbsolutePath Fixture.cwd
              Fixture.substituteValues Fixture.existsSync
              Fixture.loadFromFile Fixture.getDockerfile Fixture.getContext
              Fixture.getWorkspaceFolder Fixture.getRemoteUser
              Faulty.docker_missing "spawn docker ENOENT" H)
    as (Hx & _ & Hb & _).
  split; [exact H | split; [apply Hx|]].
  apply (Hb "img" "repo" "app" Fixture.devcontainer "Dockerfile");
    [reflexivity | reflexivity | discriminate].
Defined.
